(** * Contact form and particle background: a shallow embedding

  The development follows the two components of the repository:
  the contact form (schema, phone formatting, submission handler,
  rendering of the submit control and of the status line) and the
  clean-up of the particle background.

  JavaScript strings are sequences of UTF-16 code units; they are
  modelled as [list N], so that [length], [trim], [slice] and the
  regular expressions count and inspect exactly what the engine
  does.  Texts that the code only displays (error messages, status
  lines) are kept as [string] constants. *)

From Stdlib Require Import NArith ZArith Ascii String List Bool Lia.
From stdpp Require Import gmap strings list.
Import ListNotations.

Local Open Scope N_scope.
Local Open Scope nat_scope.
Local Open Scope list_scope.

(* ================================================================== *)
(** ** JavaScript strings *)
(* ================================================================== *)

Module JS.

Abbreviation jsstring := (list N).

(** An ASCII literal of the source, as code units. *)
Definition lit (s : string) : jsstring :=
  List.map N_of_ascii (list_ascii_of_string s).

(** [\d]: the ten ASCII digits, and nothing else. *)
Definition is_digit (c : N) : bool := ((48 <=? c) && (c <=? 57))%N.

(** [s.replace(/\D/g, "")]: every code unit that is not a digit is
    dropped. *)
Definition replace_non_digits (s : jsstring) : jsstring :=
  List.filter is_digit s.

(** [s.slice(from, to)] for non-negative indices: both ends are
    clamped to the length, and an empty range gives the empty
    string. *)
Definition slice (s : jsstring) (from to : nat) : jsstring :=
  firstn (to - from) (skipn from s).

(** [s.slice(from)] for a non-negative index. *)
Definition slice_from (s : jsstring) (from : nat) : jsstring :=
  skipn from s.

(** White space and line terminators, as [String.prototype.trim]
    removes them. *)
Definition is_space (c : N) : bool :=
  ((9 <=? c) && (c <=? 13)
   || (c =? 32) || (c =? 160) || (c =? 5760)
   || (8192 <=? c) && (c <=? 8202)
   || (c =? 8232) || (c =? 8233) || (c =? 8239) || (c =? 8287)
   || (c =? 12288) || (c =? 65279))%N.

Fixpoint trim_start (s : jsstring) : jsstring :=
  match s with
  | c :: s' => if is_space c then trim_start s' else s
  | [] => []
  end.

Definition trim_end (s : jsstring) : jsstring :=
  rev (trim_start (rev s)).

Definition trim (s : jsstring) : jsstring :=
  trim_end (trim_start s).

End JS.
Import JS.

(* ================================================================== *)
(** ** Regular expressions *)
(* ================================================================== *)

(** The fragment of the regular expressions the form uses: literal
  characters, the class [\d], sequencing and bounded repetition
  [r{lo,hi}].  [Alt] and [Empty] are needed for the derivatives. *)
Module Regex.

Inductive regex : Type :=
| Empty : regex
| Eps : regex
| Chr : N -> regex
| Digit : regex
| Alt : regex -> regex -> regex
| Seq : regex -> regex -> regex
| Rep : nat -> nat -> regex -> regex.

Fixpoint nullable (r : regex) : bool :=
  match r with
  | Empty => false
  | Eps => true
  | Chr _ => false
  | Digit => false
  | Alt r1 r2 => nullable r1 || nullable r2
  | Seq r1 r2 => nullable r1 && nullable r2
  | Rep lo hi r => (lo <=? hi) && ((lo =? 0) || nullable r)
  end.

Fixpoint deriv (c : N) (r : regex) : regex :=
  match r with
  | Empty => Empty
  | Eps => Empty
  | Chr a => if (a =? c)%N then Eps else Empty
  | Digit => if is_digit c then Eps else Empty
  | Alt r1 r2 => Alt (deriv c r1) (deriv c r2)
  | Seq r1 r2 =>
      if nullable r1
      then Alt (Seq (deriv c r1) r2) (deriv c r2)
      else Seq (deriv c r1) r2
  | Rep lo hi r =>
      match hi with
      | O => Empty
      | S hi' => Seq (deriv c r) (Rep (pred lo) hi' r)
      end
  end.

(** A syntactic check that an expression matches no string at all. *)
Fixpoint dead (r : regex) : bool :=
  match r with
  | Empty => true
  | Eps | Chr _ | Digit | Rep _ _ _ => false
  | Alt r1 r2 => dead r1 && dead r2
  | Seq r1 r2 => dead r1 || dead r2
  end.

(** [/^r$/.test(s)]: with both anchors and no flag, the whole
    string has to match. *)
Fixpoint test (r : regex) (s : jsstring) : bool :=
  match s with
  | [] => nullable r
  | c :: s' => test (deriv c r) s'
  end.

End Regex.
Import Regex.

(* ================================================================== *)
(** ** The contact form: phone formatting *)
(* ================================================================== *)

(** [/^\(\d{2}\) \d{4,5}-\d{4}$/] *)
Definition phone_regex : regex :=
  Seq (Chr 40)
   (Seq (Rep 2 2 Digit)
     (Seq (Chr 41)
       (Seq (Chr 32)
         (Seq (Rep 4 5 Digit)
           (Seq (Chr 45)
             (Rep 4 4 Digit)))))).

Definition formatPhoneNumber (input : jsstring) : jsstring :=
  let digits := replace_non_digits input in
  if 11 <=? length digits then
    lit "(" ++ slice digits 0 2 ++ lit ") " ++ slice digits 2 7
            ++ lit "-" ++ slice digits 7 11
  else if 10 <=? length digits then
    lit "(" ++ slice digits 0 2 ++ lit ") " ++ slice digits 2 6
            ++ lit "-" ++ slice digits 6 10
  else if 2 <=? length digits then
    lit "(" ++ slice digits 0 2 ++ lit ") " ++ slice_from digits 2
  else digits.

(* ================================================================== *)
(** ** The contact form: data and schema *)
(* ================================================================== *)

Record ContactFormData : Type := mkData {
  name : jsstring;
  email : jsstring;
  number : jsstring;
  message : jsstring
}.

(** [data[key]] and [data[key] = v] for the keys of the form; any
    other key reads as undefined. *)
Definition get_field (key : string) (d : ContactFormData) : option jsstring :=
  if String.eqb key "name" then Some (name d)
  else if String.eqb key "email" then Some (email d)
  else if String.eqb key "number" then Some (number d)
  else if String.eqb key "message" then Some (message d)
  else None.

Definition set_field (key : string) (v : jsstring) (d : ContactFormData)
  : ContactFormData :=
  if String.eqb key "name" then mkData v (email d) (number d) (message d)
  else if String.eqb key "email" then mkData (name d) v (number d) (message d)
  else if String.eqb key "number" then mkData (name d) (email d) v (message d)
  else if String.eqb key "message" then mkData (name d) (email d) (number d) v
  else d.

(** The string schemas of the validation library: [z.string()]
    followed by checks, run in the order they were chained.  [trim]
    rewrites the value the later checks see; the others add an issue
    carrying their message when they fail. *)
Module Zod.

Inductive check : Type :=
| Trim : check
| Min : nat -> string -> check
| Email : string -> check
| Regex : regex -> string -> check.

Record issue : Type := mkIssue { path : string; issue_message : string }.

Section Parse.

(** The library's own pattern for e-mail addresses; it differs
    between releases and is not part of the repository. *)
Variable email_ok : jsstring -> bool.

Fixpoint run_checks (cs : list check) (data : jsstring)
  : jsstring * list string :=
  match cs with
  | [] => (data, [])
  | Trim :: cs' => run_checks cs' (trim data)
  | Min n msg :: cs' =>
      let (v, msgs) := run_checks cs' data in
      if length data <? n then (v, msg :: msgs) else (v, msgs)
  | Email msg :: cs' =>
      let (v, msgs) := run_checks cs' data in
      if email_ok data then (v, msgs) else (v, msg :: msgs)
  | Regex r msg :: cs' =>
      let (v, msgs) := run_checks cs' data in
      if test r data then (v, msgs) else (v, msg :: msgs)
  end.

(** [z.object(shape).safeParse(input)]: the keys of the shape are
    parsed in order; the issues of all keys are collected, and the
    parsed values make up the output object. *)
Fixpoint parse_object (shape : list (string * list check))
  (input : ContactFormData) (output : ContactFormData)
  : ContactFormData * list issue :=
  match shape with
  | [] => (output, [])
  | (key, cs) :: shape' =>
      match get_field key input with
      | None =>
          let (out, issues) := parse_object shape' input output in
          (out, mkIssue key "Required" :: issues)
      | Some v =>
          let (v', msgs) := run_checks cs v in
          let (out, issues) :=
            parse_object shape' input (set_field key v' output) in
          (out, List.map (mkIssue key) msgs ++ issues)
      end
  end.

Definition safeParse (shape : list (string * list check))
  (input : ContactFormData) : ContactFormData + list issue :=
  match parse_object shape input input with
  | (out, []) => inl out
  | (_, issues) => inr issues
  end.

End Parse.
End Zod.

(** [contactSchema] *)
Definition contactSchema : list (string * list Zod.check) :=
  [ ("name", [Zod.Trim; Zod.Min 2 "Digite seu nome completo."]);
    ("email", [Zod.Trim; Zod.Email "Digite um e-mail válido."]);
    ("number", [Zod.Regex phone_regex "Digite um número válido."]);
    ("message",
      [Zod.Trim; Zod.Min 5 "A mensagem deve ter pelo menos 5 caracteres."]) ].

(** The resolver that binds the schema to the form library: on
    success the parsed values and no error; on failure, for every
    field, the message of its first issue. *)
Definition toErrors (issues : list Zod.issue) : gmap string string :=
  fold_left
    (fun errs i =>
       match errs !! Zod.path i with
       | Some _ => errs
       | None => <[Zod.path i := Zod.issue_message i]> errs
       end)
    issues ∅.

Definition zodResolver (email_ok : jsstring -> bool)
  (shape : list (string * list Zod.check)) (vals : ContactFormData)
  : option ContactFormData * gmap string string :=
  match Zod.safeParse email_ok shape vals with
  | inl out => (Some out, ∅)
  | inr issues => (None, toErrors issues)
  end.

(* ================================================================== *)
(** ** The contact form: requests and JSON *)
(* ================================================================== *)

Record Request : Type := mkRequest {
  url : string;
  method : string;
  headers : list (string * string);
  body : jsstring
}.

Record Response : Type := mkResponse {
  resp_status : N;
  resp_body : jsstring
}.

(** [response.ok] *)
Definition ok (r : Response) : bool :=
  ((200 <=? resp_status r) && (resp_status r <=? 299))%N.

(** What awaiting [fetch] gives: a response, or a rejection that is
    thrown at the [await]. *)
Inductive FetchOutcome : Type :=
| Resolved : Response -> FetchOutcome
| Rejected : string -> FetchOutcome.

Module Json.

Definition quotation_mark : N := 34%N.
Definition reverse_solidus : N := 92%N.

Definition hex_digit (n : N) : N :=
  (if n <? 10 then 48 + n else 87 + n)%N.

Definition unicode_escape (c : N) : jsstring :=
  [reverse_solidus; 117%N;
   hex_digit ((c / 4096) mod 16); hex_digit ((c / 256) mod 16);
   hex_digit ((c / 16) mod 16); hex_digit (c mod 16)].

Definition is_high_surrogate (c : N) : bool :=
  ((55296 <=? c) && (c <=? 56319))%N.
Definition is_low_surrogate (c : N) : bool :=
  ((56320 <=? c) && (c <=? 57343))%N.

(** The characters between the quotation marks of a JSON string, as
    [JSON.stringify] writes them. *)
Fixpoint quote_chars (s : jsstring) : jsstring :=
  match s with
  | [] => []
  | c :: s' =>
      if (c =? 8)%N then lit "\b" ++ quote_chars s'
      else if (c =? 9)%N then lit "\t" ++ quote_chars s'
      else if (c =? 10)%N then lit "\n" ++ quote_chars s'
      else if (c =? 12)%N then lit "\f" ++ quote_chars s'
      else if (c =? 13)%N then lit "\r" ++ quote_chars s'
      else if (c =? quotation_mark)%N
        then [reverse_solidus; quotation_mark] ++ quote_chars s'
      else if (c =? reverse_solidus)%N
        then [reverse_solidus; reverse_solidus] ++ quote_chars s'
      else if (c <? 32)%N then unicode_escape c ++ quote_chars s'
      else if is_high_surrogate c then
        match s' with
        | lo :: s'' =>
            if is_low_surrogate lo then c :: lo :: quote_chars s''
            else unicode_escape c ++ quote_chars s'
        | [] => unicode_escape c
        end
      else if is_low_surrogate c then unicode_escape c ++ quote_chars s'
      else c :: quote_chars s'
  end.

Definition quote (s : jsstring) : jsstring :=
  [quotation_mark] ++ quote_chars s ++ [quotation_mark].

Definition member (key : string) (v : jsstring) : jsstring :=
  quote (lit key) ++ lit ":" ++ quote v.

(** [JSON.stringify(data)] for the data of the form; the members
    come in the order of the keys of the schema. *)
Definition stringify (d : ContactFormData) : jsstring :=
  lit "{" ++ member "name" (name d)
    ++ lit "," ++ member "email" (email d)
    ++ lit "," ++ member "number" (number d)
    ++ lit "," ++ member "message" (message d)
    ++ lit "}".

End Json.

(* ================================================================== *)
(** ** The contact form: component state and handlers *)
(* ================================================================== *)

Inductive Status : Type := StatusSuccess | StatusError.

Record State : Type := mkState {
  values : ContactFormData;
  errors : gmap string string;
  isSubmitting : bool;
  status : option Status;
  console : list string
}.

Definition emptyData : ContactFormData := mkData [] [] [] [].

(** The state a freshly mounted form starts from. *)
Definition initialState : State := mkState emptyData ∅ false None [].

(** What a handler may do to the component, apart from awaiting. *)
Inductive Effect : Type :=
| SetIsSubmitting : bool -> Effect
| SetStatus : option Status -> Effect
| SetErrors : gmap string string -> Effect
| ResetForm : Effect
| ConsoleError : string -> string -> Effect.

Definition apply_effect (e : Effect) (st : State) : State :=
  match e with
  | SetIsSubmitting b =>
      mkState (values st) (errors st) b (status st) (console st)
  | SetStatus s =>
      mkState (values st) (errors st) (isSubmitting st) s (console st)
  | SetErrors errs =>
      mkState (values st) errs (isSubmitting st) (status st) (console st)
  | ResetForm =>
      mkState emptyData ∅ (isSubmitting st) (status st) (console st)
  | ConsoleError label reason =>
      mkState (values st) (errors st) (isSubmitting st) (status st)
        (console st ++ [String.append label (String.append " " reason)])
  end.

(** Asynchronous handlers: a handler returns, throws, performs an
    effect and goes on, or awaits a request and goes on with what the
    network answers. *)
Inductive Async (A : Type) : Type :=
| Ret : A -> Async A
| Throw : string -> Async A
| Do : Effect -> Async A -> Async A
| Await : Request -> (FetchOutcome -> Async A) -> Async A.

Arguments Ret {A} _.
Arguments Throw {A} _.
Arguments Do {A} _ _.
Arguments Await {A} _ _.

Fixpoint bind {A B : Type} (p : Async A) (f : A -> Async B) : Async B :=
  match p with
  | Ret a => f a
  | Throw e => Throw e
  | Do e k => Do e (bind k f)
  | Await r k => Await r (fun o => bind (k o) f)
  end.

Fixpoint try_catch {A : Type} (p : Async A) (handler : string -> Async A)
  : Async A :=
  match p with
  | Ret a => Ret a
  | Throw e => handler e
  | Do e k => Do e (try_catch k handler)
  | Await r k => Await r (fun o => try_catch (k o) handler)
  end.

Fixpoint finally {A : Type} (p : Async A) (after : Async unit) : Async A :=
  match p with
  | Ret a => bind after (fun _ => Ret a)
  | Throw e => bind after (fun _ => Throw e)
  | Do e k => Do e (finally k after)
  | Await r k => Await r (fun o => finally (k o) after)
  end.

Declare Scope async_scope.
Delimit Scope async_scope with async.
Notation "x ← p ; q" := (bind p (fun x => q))
  (at level 20, p at level 100, q at level 200, only parsing) : async_scope.
Notation "p ;; q" := (bind p (fun _ => q))
  (at level 100, q at level 200, only parsing, right associativity)
  : async_scope.

Definition effect (e : Effect) : Async unit := Do e (Ret tt).
Definition setIsSubmitting (b : bool) : Async unit := effect (SetIsSubmitting b).
Definition setStatus (s : option Status) : Async unit := effect (SetStatus s).
Definition reset : Async unit := effect ResetForm.
Definition console_error (label reason : string) : Async unit :=
  effect (ConsoleError label reason).

(** [await fetch(url, init)] *)
Definition fetch (u : string) (m : string) (hs : list (string * string))
  (b : jsstring) : Async Response :=
  Await (mkRequest u m hs b)
    (fun o => match o with
              | Resolved r => Ret r
              | Rejected reason => Throw reason
              end).

Local Open Scope async_scope.

Definition onSubmit (data : ContactFormData) : Async unit :=
  setIsSubmitting true ;;
  setStatus None ;;
  finally
    (try_catch
       (response ← fetch "/api/send-email" "POST"
                     [("Content-Type", "application/json")]
                     (Json.stringify data);
        setStatus (if ok response then Some StatusSuccess
                   else Some StatusError) ;;
        if ok response then reset else Ret tt)
       (fun error =>
          console_error "Submission error:" error ;;
          setStatus (Some StatusError)))
    (setIsSubmitting false).

(** [handleSubmit(onValid)] of the form library, on the current
    values of the fields: the resolver runs, its errors become the
    errors of the form, and [onValid] is called with the parsed values
    only when there is no error. *)
Definition handleSubmit (email_ok : jsstring -> bool)
  (onValid : ContactFormData -> Async unit) (vals : ContactFormData)
  : Async unit :=
  let (parsed, errs) := zodResolver email_ok contactSchema vals in
  Do (SetErrors errs)
    (match parsed with
     | Some data => if decide (errs = ∅) then onValid data else Ret tt
     | None => Ret tt
     end).

Local Close Scope async_scope.

(** *** Running a handler *)

(** One whole run, the network answering each request through
    [net]; the requests issued are appended to [log] in order. *)
Fixpoint run {A : Type} (net : Request -> FetchOutcome) (p : Async A)
  (st : State) (log : list Request) : State * list Request * (string + A) :=
  match p with
  | Ret a => (st, log, inr a)
  | Throw e => (st, log, inl e)
  | Do e k => run net k (apply_effect e st) log
  | Await r k => run net (k (net r)) st (log ++ [r])
  end.

(** A run up to its first [await]: either the handler is over, or it
    is suspended on a request with the rest of its work. *)
Inductive Progress (A : Type) : Type :=
| Finished : State -> string + A -> Progress A
| Suspended : State -> Request -> (FetchOutcome -> Async A) -> Progress A.

Arguments Finished {A} _ _.
Arguments Suspended {A} _ _ _.

Fixpoint run_to_await {A : Type} (p : Async A) (st : State) : Progress A :=
  match p with
  | Ret a => Finished st (inr a)
  | Throw e => Finished st (inl e)
  | Do e k => run_to_await k (apply_effect e st)
  | Await r k => Suspended st r k
  end.

(** *** What the component renders *)

Record Button : Type := mkButton { disabled : bool; label : string }.

Definition submitButton (st : State) : Button :=
  mkButton (isSubmitting st)
           (if isSubmitting st then "Enviando..." else "Enviar").

Definition statusLine (st : State) : option string :=
  match status st with
  | None => None
  | Some StatusSuccess => Some "Mensagem enviada com sucesso!"
  | Some StatusError => Some "Erro ao enviar. Tente novamente."
  end.

Definition fieldError (key : string) (st : State) : option string :=
  errors st !! key.

(** *** The mounted form as a transition system *)

(** The page holds the component, the requests that were issued and
    are not settled yet, each with the suspended handler that waits
    for it, and the log of all requests issued so far. *)
Record Page : Type := mkPage {
  ui : State;
  pending : list (Request * (FetchOutcome -> Async unit));
  sent : list Request
}.

Definition initialPage : Page := mkPage initialState [] [].

Inductive Event : Type :=
| Input : string -> jsstring -> Event
| BlurNumber : Event
| BlurMessage : Event
| Submit : Event
| Settle : nat -> FetchOutcome -> Event.

Definition launch (p : Async unit) (pg : Page) : Page :=
  match run_to_await p (ui pg) with
  | Finished st _ => mkPage st (pending pg) (sent pg)
  | Suspended st r k => mkPage st (pending pg ++ [(r, k)]) (sent pg ++ [r])
  end.

Definition with_values (f : ContactFormData -> ContactFormData) (st : State)
  : State :=
  mkState (f (values st)) (errors st) (isSubmitting st) (status st)
          (console st).

(** Validation of one field when it loses focus (mode [onBlur]):
    only the error of that field is updated. *)
Definition validate_field (email_ok : jsstring -> bool) (key : string)
  (st : State) : State :=
  let errs := snd (zodResolver email_ok contactSchema (values st)) in
  mkState (values st)
          (match errs !! key with
           | Some m => <[key := m]> (errors st)
           | None => delete key (errors st)
           end)
          (isSubmitting st) (status st) (console st).

(** One event on the page.  The submit control is the one rendered
    from the current state, the component being rendered again before
    the next event is handled; a disabled submit control does not
    submit the form, neither by a click nor through the fields.  A
    request that settles resumes the handler that waits for it, on
    the state the component has by then. *)
Definition step (email_ok : jsstring -> bool) (pg : Page) (ev : Event) : Page :=
  match ev with
  | Input key v =>
      mkPage (with_values (set_field key v) (ui pg)) (pending pg) (sent pg)
  | BlurNumber =>
      mkPage (with_values
                (fun d => set_field "number" (formatPhoneNumber (number d)) d)
                (ui pg))
             (pending pg) (sent pg)
  | BlurMessage =>
      mkPage (validate_field email_ok "message" (ui pg)) (pending pg) (sent pg)
  | Submit =>
      if disabled (submitButton (ui pg)) then pg
      else launch (handleSubmit email_ok onSubmit (values (ui pg))) pg
  | Settle i o =>
      match pending pg !! i with
      | None => pg
      | Some (_, k) =>
          launch (k o) (mkPage (ui pg) (delete i (pending pg)) (sent pg))
      end
  end.

Definition steps (email_ok : jsstring -> bool) (pg : Page) (evs : list Event)
  : Page :=
  fold_left (step email_ok) evs pg.

(** A suspended handler settles when, whatever the network answers
    and whatever the component has become meanwhile, it runs to its
    end without another request and leaves [isSubmitting] false. *)
Definition settles (k : FetchOutcome -> Async unit) : Prop :=
  forall (o : FetchOutcome) (st : State),
    exists st', run_to_await (k o) st = Finished st' (inr tt)
                /\ isSubmitting st' = false.

(** Mutual exclusion of the submissions: nothing is in flight and
    the form is not submitting, or exactly one request is in flight,
    the form is submitting, and the handler that waits will settle. *)
Definition exclusive (pg : Page) : Prop :=
  (pending pg = [] /\ isSubmitting (ui pg) = false)
  \/ (exists r k, pending pg = [(r, k)]
                  /\ isSubmitting (ui pg) = true
                  /\ settles k).

(* ================================================================== *)
(** ** Sample inputs *)
(* ================================================================== *)

(** A literal in which the apostrophes stand for quotation marks. *)
Definition json_lit (s : string) : jsstring :=
  List.map (fun c => if (c =? 39)%N then Json.quotation_mark else c) (lit s).

(** The valid input of the specification; the cedilla of the message
    is the code unit 231. *)
Definition buzz : ContactFormData :=
  mkData (lit "Buzz Lightyear") (lit "buzz@example.com")
         (lit "(11) 98765-4321")
         (lit "Preciso de um or" ++ [231%N] ++ lit "amento").

Definition buzz_json : jsstring :=
  json_lit "{'name':'Buzz Lightyear','email':'buzz@example.com',"
  ++ json_lit "'number':'(11) 98765-4321','message':'Preciso de um or"
  ++ [231%N] ++ json_lit "amento'}".

(** The form filled in with that input, the number as typed digits
    that the blur handler formats, and submitted. *)
Definition buzz_events : list Event :=
  [ Input "name" (name buzz); Input "email" (email buzz);
    Input "number" (lit "11987654321"); BlurNumber;
    Input "message" (message buzz); BlurMessage; Submit ].

(** An input at fault in its name and in its number. *)
Definition shortName : ContactFormData :=
  mkData (lit " B ") (lit "buzz@example.com") (lit "11987654321")
         (lit "Preciso de ajuda").

(** A stand-in for the e-mail pattern of the library, for the
    examples: an at sign somewhere. *)
Definition has_at_sign (s : jsstring) : bool := existsb (N.eqb 64) s.

(* ================================================================== *)
(** ** The particle background: the document and the clean-up *)
(* ================================================================== *)

Module Dom.

#[local] Set Warnings "-register-all".

(** An element: its identity, its tag, its [src] attribute when it
    has one, and its children in order. *)
Inductive element : Type :=
| Element : nat -> string -> option jsstring -> list element -> element.

Definition elt_id (e : element) : nat :=
  match e with Element i _ _ _ => i end.
Definition tag (e : element) : string :=
  match e with Element _ t _ _ => t end.
Definition src (e : element) : option jsstring :=
  match e with Element _ _ s _ => s end.
Definition children (e : element) : list element :=
  match e with Element _ _ _ cs => cs end.

(** The children of the document node, and the trees that were taken
    out of it and have no parent. *)
Record Document : Type := mkDocument {
  document : list element;
  detached : list element
}.

(** An element and its descendants, in tree order. *)
Fixpoint subtree (e : element) : list element :=
  match e with
  | Element _ _ _ cs => e :: flat_map subtree cs
  end.

Definition elements (roots : list element) : list element :=
  flat_map subtree roots.

(** [v.includes(pat)] on code units. *)
Fixpoint starts_with (pat s : jsstring) : bool :=
  match pat, s with
  | [], _ => true
  | _ :: _, [] => false
  | p :: pat', c :: s' => (p =? c)%N && starts_with pat' s'
  end.

Fixpoint includes (pat s : jsstring) : bool :=
  starts_with pat s
  || match s with
     | [] => false
     | _ :: s' => includes pat s'
     end.

(** The selector [tag[src*="pat"]]. *)
Definition selects (t : string) (pat : jsstring) (e : element) : bool :=
  String.eqb (tag e) t
  && match src e with
     | Some v => includes pat v
     | None => false
     end.

(** [document.querySelectorAll(sel)]: the elements of the document
    that the selector matches, in tree order. *)
Definition querySelectorAll (t : string) (pat : jsstring) (d : Document)
  : list nat :=
  List.map elt_id (List.filter (selects t pat) (elements (document d))).

(** An element without its descendants of identity [i], at any
    depth; identities are unique in a document, so that at most one
    descendant goes. *)
Fixpoint prune (i : nat) (e : element) : element :=
  match e with
  | Element j t s cs =>
      Element j t s
        (List.filter (fun c => negb (elt_id c =? i))
                     (List.map (prune i) cs))
  end.

(** The trees of identity [i] that [prune] takes out of an
    element. *)
Fixpoint taken (i : nat) (e : element) : list element :=
  match e with
  | Element _ _ _ cs =>
      flat_map (fun c => if elt_id c =? i then [c] else taken i c) cs
  end.

(** [script.parentNode] is not null: the element is a child of the
    document node or of some element. *)
Definition has_parent (i : nat) (d : Document) : bool :=
  existsb (fun e => elt_id e =? i) (document d)
  || existsb (fun e => existsb (fun c => elt_id c =? i) (children e))
             (elements (document d) ++ elements (detached d)).

(** [script.parentNode.removeChild(script)]: the element leaves its
    parent, with its descendants, and becomes a parentless root.  A
    parentless root of that identity stays where it is. *)
Definition removeChild (i : nat) (d : Document) : Document :=
  mkDocument
    (List.filter (fun c => negb (elt_id c =? i))
                 (List.map (prune i) (document d)))
    (List.map (prune i) (detached d)
     ++ flat_map (fun c => if elt_id c =? i then [c] else taken i c)
                 (document d)
     ++ flat_map (taken i) (detached d)).

Definition cdn_url : jsstring :=
  lit "https://cdn.jsdelivr.net/particles.js/2.0.0/particles.min.js".

(** [document.body.appendChild(script)], by the identity [b] of the
    body: the new element becomes the last child of every element of
    that identity. *)
Fixpoint append_to (b : nat) (n : element) (e : element) : element :=
  match e with
  | Element j t s cs =>
      let cs' := List.map (append_to b n) cs in
      Element j t s (if j =? b then cs' ++ [n] else cs')
  end.

(** [loadParticlesScript]: the script element [fresh] is created,
    pointed at the engine and appended to the body. *)
Definition loadParticlesScript (fresh body_id : nat) (d : Document)
  : Document :=
  mkDocument
    (List.map (append_to body_id (Element fresh "script" (Some cdn_url) []))
              (document d))
    (detached d).

(** The callback of the clean-up, on one script:
    [if (script.parentNode) script.parentNode.removeChild(script)]. *)
Definition remove_script (d : Document) (script : nat) : Document :=
  if has_parent script d then removeChild script d else d.

(** The clean-up of the effect: the scripts the selector finds are
    collected first, then [forEach] runs the callback on each. *)
Definition cleanup (d : Document) : Document :=
  fold_left remove_script
    (querySelectorAll "script" (lit "particles.min.js") d)
    d.

(** Two elements that agree on identity, tag and source. *)
Definition same_node (x y : element) : Prop :=
  elt_id x = elt_id y /\ tag x = tag y /\ src x = src y.

(** What pruning leaves of an element: below its root nothing of
    identity [i], and only nodes that were there. *)
Definition pruned_well (i : nat) (c : element) : Prop :=
  (forall x, In x (elements (children (prune i c))) -> elt_id x <> i)
  /\ (forall x, In x (subtree (prune i c)) ->
                exists y, In y (subtree c) /\ same_node x y).

(** A page with the container of the particles and another script,
    before the component is mounted. *)
Definition page : Document :=
  mkDocument
    [Element 1 "html" None
       [Element 2 "head" None
          [Element 5 "script" (Some (lit "/static/app.js")) []];
        Element 3 "body" None
          [Element 4 "div" None []]]]
    [].

End Dom.

(* ================================================================== *)
(** ** What the page sends, and what it keeps *)
(* ================================================================== *)

(** The request [onSubmit] issues for the data it is given. *)
Definition submission (data : ContactFormData) : Request :=
  mkRequest "/api/send-email" "POST"
            [("Content-Type", "application/json")] (Json.stringify data).

(** Data on which the four checks of the schema hold as they are. *)
Definition accepted (email_ok : jsstring -> bool) (d : ContactFormData)
  : Prop :=
  2 <= length (name d) /\ email_ok (email d) = true
  /\ test phone_regex (number d) = true /\ 5 <= length (message d).

(** What the form keeps while it lives: the submissions exclude each
    other, no status is set while one is in flight, and every request
    sent so far carries accepted data. *)
Definition sound (email_ok : jsstring -> bool) (pg : Page) : Prop :=
  exclusive pg
  /\ (isSubmitting (ui pg) = true -> status (ui pg) = None)
  /\ Forall (fun r => exists d, accepted email_ok d /\ r = submission d)
            (sent pg).

(* ================================================================== *)
(** ** The contact form: the reveal of the content *)
(* ================================================================== *)

Module Reveal.

(** The two flags of the component and the timer of its effect,
    pending or not. *)
Record Flags : Type := mkFlags {
  isLoaded : bool;
  isContentVisible : bool;
  timer : bool
}.

(** The component is not mounted, or mounted with its flags. *)
Inductive Phase : Type :=
| Unmounted : Phase
| Mounted : Flags -> Phase.

Inductive Event : Type :=
| Mount : Event
| Elapse : Event
| Unmount : Event.

(** The effect of the mount: [setIsLoaded(true)] and the timer of
    500 ms is started, on the initial flags. *)
Definition mount_effect : Flags := mkFlags true false true.

(** The callback of the timer: [setIsContentVisible(true)]. *)
Definition timer_callback (f : Flags) : Flags :=
  mkFlags (isLoaded f) true false.

(** A timer that was cleared, or that has run, does not run. *)
Definition step (ph : Phase) (ev : Event) : Phase :=
  match ev, ph with
  | Mount, Unmounted => Mounted mount_effect
  | Mount, Mounted f => Mounted f
  | Elapse, Mounted f => if timer f then Mounted (timer_callback f) else ph
  | Elapse, Unmounted => Unmounted
  | Unmount, _ => Unmounted
  end.

Definition steps (ph : Phase) (evs : list Event) : Phase :=
  fold_left step evs ph.

(** The style of the outer element: its visibility and its
    opacity. *)
Definition visibility (f : Flags) : string :=
  if isLoaded f then "visible" else "hidden".
Definition opacity (f : Flags) : nat :=
  if isContentVisible f then 1 else 0.

End Reveal.

(* ================================================================== *)
(** ** The document: elements with their ancestors *)
(* ================================================================== *)

(** Every element below [e], [e] included, with the identities from
    itself up to the root, [anc] being those above [e]. *)
Fixpoint lineage (anc : list nat) (e : Dom.element)
  : list (list nat * Dom.element) :=
  match e with
  | Dom.Element j _ _ cs => (j :: anc, e) :: flat_map (lineage (j :: anc)) cs
  end.

(** A forest without its elements of identity [i], as [removeChild]
    leaves the document. *)
Definition without (i : nat) (l : list Dom.element) : list Dom.element :=
  List.filter (fun c => negb (Dom.elt_id c =? i)) (List.map (Dom.prune i) l).

(** The identities of the elements of a forest. *)
Definition identities (l : list Dom.element) : list nat :=
  List.map Dom.elt_id (Dom.elements l).

(* ================================================================== *)
(** * Properties *)
(* ================================================================== *)

(** ** Digits and slices *)

Lemma is_digit_range (c : N) : is_digit c = true <-> (48 <= c <= 57)%N.
Proof.
  unfold is_digit. rewrite andb_true_iff, !N.leb_le. tauto.
Qed.

Lemma replace_non_digits_all (s : jsstring) :
  Forall (fun c => is_digit c = true) (replace_non_digits s).
Proof.
  apply List.Forall_forall. intros c Hc.
  apply List.filter_In in Hc. tauto.
Qed.

Lemma replace_non_digits_app (s t : jsstring) :
  replace_non_digits (s ++ t) = replace_non_digits s ++ replace_non_digits t.
Proof. apply List.filter_app. Qed.

Lemma replace_non_digits_id (ds : jsstring) :
  Forall (fun c => is_digit c = true) ds -> replace_non_digits ds = ds.
Proof.
  induction 1 as [|c ds Hc _ IH]; [reflexivity|].
  unfold replace_non_digits in *. simpl. rewrite Hc, IH. reflexivity.
Qed.

Lemma replace_non_digits_idem (s : jsstring) :
  replace_non_digits (replace_non_digits s) = replace_non_digits s.
Proof. apply replace_non_digits_id, replace_non_digits_all. Qed.

Lemma Forall_slice (P : N -> Prop) (ds : jsstring) (a b : nat) :
  Forall P ds -> Forall P (slice ds a b).
Proof.
  intros H. unfold slice. apply Forall_take, Forall_drop, H.
Qed.

Lemma Forall_slice_from (P : N -> Prop) (ds : jsstring) (a : nat) :
  Forall P ds -> Forall P (slice_from ds a).
Proof. intros H. unfold slice_from. apply Forall_drop, H. Qed.

(** The output is a function of the digits of the input alone. *)
Lemma formatPhoneNumber_digits (s t : jsstring) :
  replace_non_digits s = replace_non_digits t ->
  formatPhoneNumber s = formatPhoneNumber t.
Proof. intros H. unfold formatPhoneNumber. rewrite H. reflexivity. Qed.

(** Formatting the bare digits gives what formatting the input gives. *)
Lemma formatPhoneNumber_of_digits (s : jsstring) :
  formatPhoneNumber (replace_non_digits s) = formatPhoneNumber s.
Proof. apply formatPhoneNumber_digits, replace_non_digits_idem. Qed.

(** Case analysis on a list up to a given length, used for the
    lengths that [formatPhoneNumber] distinguishes. *)
Ltac split_digits ds n :=
  lazymatch n with
  | O => idtac
  | S ?m => destruct ds as [|? ds]; [| split_digits ds m]
  end.

(** The digits of the output are the first eleven digits of the
    input. *)
Lemma digits_of_formatPhoneNumber (s : jsstring) :
  replace_non_digits (formatPhoneNumber s) = firstn 11 (replace_non_digits s).
Proof.
  unfold formatPhoneNumber.
  pose proof (replace_non_digits_all s) as Hall.
  set (ds := replace_non_digits s) in *. clearbody ds.
  repeat match goal with
         | |- context [if ?b then _ else _] => destruct b eqn:?
         end;
    rewrite ?replace_non_digits_app,
      ?(replace_non_digits_id (slice ds _ _)),
      ?(replace_non_digits_id (slice_from ds _)),
      ?(replace_non_digits_id ds)
      by auto using Forall_slice, Forall_slice_from.
  all: change (replace_non_digits (lit "(")) with (@nil N);
       change (replace_non_digits (lit ") ")) with (@nil N);
       try change (replace_non_digits (lit "-")) with (@nil N);
       cbn [app].
  all: unfold slice, slice_from.
  all: split_digits ds 12; simpl in *; try discriminate; reflexivity.
Qed.

Lemma formatPhoneNumber_truncates (s : jsstring) :
  formatPhoneNumber (firstn 11 (replace_non_digits s)) = formatPhoneNumber s.
Proof.
  unfold formatPhoneNumber.
  pose proof (replace_non_digits_all s) as Hall.
  set (ds := replace_non_digits s) in *. clearbody ds.
  rewrite (replace_non_digits_id (firstn 11 ds)) by (apply Forall_take, Hall).
  unfold slice, slice_from.
  split_digits ds 12; reflexivity.
Qed.

Lemma formatPhoneNumber_idempotent (s : jsstring) :
  formatPhoneNumber (formatPhoneNumber s) = formatPhoneNumber s.
Proof.
  rewrite <- (formatPhoneNumber_of_digits (formatPhoneNumber s)).
  rewrite digits_of_formatPhoneNumber.
  apply formatPhoneNumber_truncates.
Qed.

(** ** The matcher on the phone pattern *)

Lemma dead_not_nullable (r : regex) : dead r = true -> nullable r = false.
Proof.
  induction r; simpl; try discriminate; try reflexivity.
  - rewrite andb_true_iff. intros [H1 H2].
    rewrite IHr1, IHr2 by assumption. reflexivity.
  - rewrite orb_true_iff. intros [H|H].
    + rewrite IHr1 by assumption. reflexivity.
    + rewrite IHr2 by assumption. apply andb_false_r.
Qed.

Lemma dead_deriv (c : N) (r : regex) : dead r = true -> dead (deriv c r) = true.
Proof.
  induction r; simpl; try discriminate; try reflexivity.
  - rewrite andb_true_iff. intros [H1 H2].
    rewrite IHr1, IHr2 by assumption. reflexivity.
  - rewrite orb_true_iff. intros H.
    destruct (nullable r1) eqn:Hn; simpl.
    + destruct H as [H|H].
      * rewrite (dead_not_nullable r1 H) in Hn. discriminate.
      * rewrite H, IHr2 by assumption. rewrite orb_true_r. reflexivity.
    + destruct H as [H|H].
      * rewrite IHr1 by assumption. reflexivity.
      * rewrite H. apply orb_true_r.
Qed.

Lemma dead_test (r : regex) (s : jsstring) : dead r = true -> test r s = false.
Proof.
  revert r. induction s as [|c s IH]; intros r H; simpl.
  - apply dead_not_nullable, H.
  - apply IH, dead_deriv, H.
Qed.

Lemma test_Alt (r1 r2 : regex) (s : jsstring) :
  test (Alt r1 r2) s = test r1 s || test r2 s.
Proof.
  revert r1 r2. induction s as [|c s IH]; intros r1 r2; simpl; [reflexivity|].
  apply IH.
Qed.

(** One step of the inversion of a match: the next character is
    read, the condition it has to meet is split, and the branch where
    the expression has become dead is closed. *)
Ltac read_char H s :=
  destruct s as [|? s];
  [ try (vm_compute in H; discriminate H)
  | cbn -[N.eqb is_digit] in H;
    repeat match type of H with
           | context [if ?b then _ else _] =>
               destruct b eqn:?; cbn -[N.eqb is_digit] in H
           end;
    try (rewrite dead_test in H by reflexivity; discriminate H) ].

Lemma phone_regex_inv (s : jsstring) :
  test phone_regex s = true ->
  exists d0 d1 d2 d3 d4 d5 d6 d7 d8 d9 (rest : jsstring),
    Forall (fun c => is_digit c = true)
           ([d0; d1; d2; d3; d4; d5; d6; d7; d8; d9] ++ rest)
    /\ (length rest <= 1)%nat
    /\ s = [40%N; d0; d1; 41%N; 32%N; d2; d3; d4; d5] ++ rest
             ++ [45%N; d6; d7; d8; d9].
Proof.
  intros H. unfold phone_regex in H.
  do 16 (try read_char H s).
  all: repeat match goal with
         | E : (_ =? _)%N = true |- _ => apply N.eqb_eq in E; subst
         end.
  all: try match goal with
         | E : is_digit _ = true |- _ => vm_compute in E; discriminate E
         end.
  - exists n0, n1, n4, n5, n6, n7, n10, n11, n12, n13, [n8].
    split; [repeat constructor; assumption | split; [simpl; lia | reflexivity]].
  - exists n0, n1, n4, n5, n6, n7, n9, n10, n11, n12, [].
    split; [repeat constructor; assumption | split; [simpl; lia | reflexivity]].
Qed.

Lemma phone_regex_intro (d0 d1 d2 d3 d4 d5 d6 d7 d8 d9 : N) (rest : jsstring) :
  Forall (fun c => is_digit c = true)
         ([d0; d1; d2; d3; d4; d5; d6; d7; d8; d9] ++ rest) ->
  (length rest <= 1)%nat ->
  test phone_regex
       ([40%N; d0; d1; 41%N; 32%N; d2; d3; d4; d5] ++ rest
          ++ [45%N; d6; d7; d8; d9]) = true.
Proof.
  intros Hall Hlen.
  destruct rest as [|d [|? ?]]; simpl in Hlen; try lia;
    repeat match goal with
           | F : Forall _ (_ :: _) |- _ => inversion F; subst; clear F
           | F : Forall _ (_ ++ _) |- _ => simpl in F
           end;
    unfold phone_regex;
    repeat (cbn -[is_digit N.eqb];
            match goal with
            | E : is_digit ?c = true |- context [is_digit ?c] => rewrite E
            | |- context [(?a =? ?a)%N] => rewrite N.eqb_refl
            | |- context [is_digit 45] => change (is_digit 45) with false
            | |- context [(45 =? ?c)%N] =>
                destruct (N.eqb_spec 45 c) as [Heq|_];
                [ exfalso; subst c;
                  match goal with
                  | E : is_digit 45 = true |- _ =>
                      vm_compute in E; discriminate E
                  end
                | ]
            end);
    reflexivity.
Qed.

(** Evaluation of [\d] on the characters of a string whose digits are
    variables known to be digits and whose other characters are
    literals. *)
Ltac eval_digits :=
  unfold replace_non_digits; cbn [List.filter app];
  repeat (match goal with
          | E : is_digit ?c = true |- context [is_digit ?c] => rewrite E
          | |- context [is_digit (N.pos ?p)] =>
              let b := eval vm_compute in (is_digit (N.pos p)) in
              change (is_digit (N.pos p)) with b
          end; cbn [List.filter app]).

(** A string that matches the phone pattern is left as it is. *)
Lemma formatPhoneNumber_fixes_matches (s : jsstring) :
  test phone_regex s = true -> formatPhoneNumber s = s.
Proof.
  intros H. apply phone_regex_inv in H.
  destruct H as (d0 & d1 & d2 & d3 & d4 & d5 & d6 & d7 & d8 & d9 & rest
                 & Hall & Hlen & ->).
  destruct rest as [|d [|? ?]]; simpl in Hlen; try lia;
    repeat match goal with
           | F : Forall _ (_ :: _) |- _ => inversion F; subst; clear F
           | F : Forall _ (_ ++ _) |- _ => simpl in F
           end.
  - assert (Hd : replace_non_digits
                   ([40%N; d0; d1; 41%N; 32%N; d2; d3; d4; d5] ++ []
                      ++ [45%N; d6; d7; d8; d9])
                 = [d0; d1; d2; d3; d4; d5; d6; d7; d8; d9])
      by (eval_digits; reflexivity).
    unfold formatPhoneNumber. rewrite Hd. reflexivity.
  - assert (Hd : replace_non_digits
                   ([40%N; d0; d1; 41%N; 32%N; d2; d3; d4; d5] ++ [d]
                      ++ [45%N; d6; d7; d8; d9])
                 = [d0; d1; d2; d3; d4; d5; d; d6; d7; d8; d9])
      by (eval_digits; reflexivity).
    unfold formatPhoneNumber. rewrite Hd. reflexivity.
Qed.

(** With ten digits or more the output matches the phone pattern. *)
Lemma formatPhoneNumber_matches (s : jsstring) :
  10 <= length (replace_non_digits s) ->
  test phone_regex (formatPhoneNumber s) = true.
Proof.
  unfold formatPhoneNumber.
  pose proof (replace_non_digits_all s) as Hall.
  set (ds := replace_non_digits s) in *. clearbody ds. intros Hlen.
  split_digits ds 11; simpl in Hlen; try lia;
    repeat match goal with
           | F : Forall _ (_ :: _) |- _ => inversion F; subst; clear F
           end.
  - apply (phone_regex_intro n n0 n1 n2 n3 n4 n5 n6 n7 n8 []);
      [repeat constructor; assumption | simpl; lia].
  - apply (phone_regex_intro n n0 n1 n2 n3 n4 n6 n7 n8 n9 [n5]);
      [repeat constructor; assumption | simpl; lia].
Qed.

(** ** The claims on phone formatting *)

(** C3. [formatPhoneNumber] works on the digits of its input, the
    characters of the input that are digits, in their order: with
    eleven digits the result is ["(DD) DDDDD-DDDD"] over them, with
    ten digits it is ["(DD) DDDD-DDDD"], and with fewer than two
    digits it is the digits as they are. *)
Theorem C3_formatPhoneNumber_by_digit_count (s : jsstring) :
  (forall c, In c (replace_non_digits s) <-> In c s /\ is_digit c = true)
  /\ (forall d0 d1 d2 d3 d4 d5 d6 d7 d8 d9 d10,
        replace_non_digits s = [d0; d1; d2; d3; d4; d5; d6; d7; d8; d9; d10] ->
        formatPhoneNumber s =
          lit "(" ++ [d0; d1] ++ lit ") " ++ [d2; d3; d4; d5; d6]
                  ++ lit "-" ++ [d7; d8; d9; d10])
  /\ (forall d0 d1 d2 d3 d4 d5 d6 d7 d8 d9,
        replace_non_digits s = [d0; d1; d2; d3; d4; d5; d6; d7; d8; d9] ->
        formatPhoneNumber s =
          lit "(" ++ [d0; d1] ++ lit ") " ++ [d2; d3; d4; d5]
                  ++ lit "-" ++ [d6; d7; d8; d9])
  /\ (length (replace_non_digits s) < 2 ->
      formatPhoneNumber s = replace_non_digits s).
Proof.
  split; [| split; [| split]].
  - intros c. unfold replace_non_digits. apply List.filter_In.
  - intros * H. unfold formatPhoneNumber. rewrite H. reflexivity.
  - intros * H. unfold formatPhoneNumber. rewrite H. reflexivity.
  - intros H. unfold formatPhoneNumber.
    destruct (replace_non_digits s) as [|? [|? ?]]; simpl in H; try lia;
      reflexivity.
Qed.

Lemma C3_witness :
  formatPhoneNumber (lit "11 98765 4321") = lit "(11) 98765-4321"
  /\ formatPhoneNumber (lit "+11-9876.5432") = lit "(11) 9876-5432"
  /\ formatPhoneNumber (lit "tel: 7") = lit "7".
Proof.
  pose proof (C3_formatPhoneNumber_by_digit_count (lit "11 98765 4321"))
    as (_ & H11 & _ & _).
  pose proof (C3_formatPhoneNumber_by_digit_count (lit "+11-9876.5432"))
    as (_ & _ & H10 & _).
  pose proof (C3_formatPhoneNumber_by_digit_count (lit "tel: 7"))
    as (_ & _ & _ & H1).
  split; [| split].
  - exact (H11 49 49 57 56 55 54 53 52 51 50 49 eq_refl)%N.
  - exact (H10 49 49 57 56 55 54 53 52 51 50 eq_refl)%N.
  - apply H1. vm_compute. lia.
Defined.

(** C4. The three examples of the specification, and idempotence on
    the inputs with ten or eleven digits; moreover a value that
    already has the final format is returned as it is. *)
Theorem C4_formatPhoneNumber_examples :
  formatPhoneNumber (lit "11987654321") = lit "(11) 98765-4321"
  /\ formatPhoneNumber (lit "1198765432") = lit "(11) 9876-5432"
  /\ formatPhoneNumber (lit "11") = lit "(11) "
  /\ (forall s,
        length (replace_non_digits s) = 10
        \/ length (replace_non_digits s) = 11 ->
        formatPhoneNumber (formatPhoneNumber s) = formatPhoneNumber s)
  /\ (forall s, test phone_regex s = true -> formatPhoneNumber s = s).
Proof.
  repeat split; try reflexivity.
  - intros s _. apply formatPhoneNumber_idempotent.
  - apply formatPhoneNumber_fixes_matches.
Qed.

Lemma C4_witness :
  formatPhoneNumber (formatPhoneNumber (lit "11 9876 5432"))
  = formatPhoneNumber (lit "11 9876 5432")
  /\ formatPhoneNumber (lit "(11) 98765-4321") = lit "(11) 98765-4321".
Proof.
  pose proof C4_formatPhoneNumber_examples as (_ & _ & _ & Hidem & Hfix).
  split.
  - apply Hidem. left. reflexivity.
  - apply Hfix. reflexivity.
Defined.

(** C9. [formatPhoneNumber] is idempotent on every string: the
    characters it inserts are not digits, and its result depends on
    the digits of its input only. *)
Theorem C9_formatPhoneNumber_idempotent_everywhere :
  (forall s, formatPhoneNumber (formatPhoneNumber s) = formatPhoneNumber s)
  /\ replace_non_digits (lit "() -") = []
  /\ (forall s t,
        replace_non_digits s = replace_non_digits t ->
        formatPhoneNumber s = formatPhoneNumber t).
Proof.
  split; [| split].
  - apply formatPhoneNumber_idempotent.
  - reflexivity.
  - apply formatPhoneNumber_digits.
Qed.

Lemma C9_witness :
  formatPhoneNumber (lit "1a2b3") = formatPhoneNumber (lit "(12) 3").
Proof.
  apply (proj2 (proj2 C9_formatPhoneNumber_idempotent_everywhere)).
  reflexivity.
Defined.

(** C10. With ten digits or more in the input the result matches the
    pattern the schema asks for; beyond eleven digits nothing is
    rejected, the result is the one of the first eleven digits. *)
Theorem C10_formatPhoneNumber_matches_schema (s : jsstring) :
  10 <= length (replace_non_digits s) ->
  test phone_regex (formatPhoneNumber s) = true
  /\ replace_non_digits (formatPhoneNumber s) = firstn 11 (replace_non_digits s)
  /\ formatPhoneNumber s = formatPhoneNumber (firstn 11 (replace_non_digits s)).
Proof.
  intros H. split; [| split].
  - apply formatPhoneNumber_matches, H.
  - apply digits_of_formatPhoneNumber.
  - symmetry. apply formatPhoneNumber_truncates.
Qed.

Lemma C10_witness :
  test phone_regex (formatPhoneNumber (lit "+55 11 98765-4321")) = true
  /\ formatPhoneNumber (lit "+55 11 98765-4321") = lit "(55) 11987-6543".
Proof.
  destruct (C10_formatPhoneNumber_matches_schema (lit "+55 11 98765-4321"))
    as (Hm & _ & Ht).
  - vm_compute. lia.
  - split; [exact Hm | rewrite Ht; reflexivity].
Defined.

(** ** Validation *)

Section Validation.

Variable email_ok : jsstring -> bool.

(** What the resolver computes on the schema of the form: the four
    checks are run on the trimmed name, e-mail and message and on the
    number as it is, and their issues are put together. *)
Lemma zodResolver_contactSchema (v : ContactFormData) :
  zodResolver email_ok contactSchema v =
    match
      (if length (trim (name v)) <? 2
       then [Zod.mkIssue "name" "Digite seu nome completo."] else [])
      ++ (if email_ok (trim (email v))
          then [] else [Zod.mkIssue "email" "Digite um e-mail válido."])
      ++ (if test phone_regex (number v)
          then [] else [Zod.mkIssue "number" "Digite um número válido."])
      ++ (if length (trim (message v)) <? 5
          then [Zod.mkIssue "message"
                  "A mensagem deve ter pelo menos 5 caracteres."]
          else [])
    with
    | [] => (Some (mkData (trim (name v)) (trim (email v)) (number v)
                          (trim (message v))), ∅)
    | issues => (None, toErrors issues)
    end.
Proof.
  unfold zodResolver, Zod.safeParse, contactSchema.
  cbn [Zod.parse_object Zod.run_checks get_field set_field
       String.eqb Ascii.eqb Bool.eqb].
  destruct (length (trim (name v)) <? 2),
           (email_ok (trim (email v))),
           (test phone_regex (number v)),
           (length (trim (message v)) <? 5); reflexivity.
Qed.

(** Errors and parsed values exclude each other. *)
Lemma zodResolver_errors_or_values (v : ContactFormData) :
  (exists d, zodResolver email_ok contactSchema v = (Some d, ∅))
  \/ (exists errs, errs <> ∅
                   /\ zodResolver email_ok contactSchema v = (None, errs)).
Proof.
  rewrite zodResolver_contactSchema.
  destruct (length (trim (name v)) <? 2),
           (email_ok (trim (email v))),
           (test phone_regex (number v)),
           (length (trim (message v)) <? 5); cbn [app];
    first [ left; eexists; reflexivity
          | right; eexists; split; [| reflexivity];
            intros Habs;
            apply (f_equal (fun m : gmap string string => size m)) in Habs;
            vm_compute in Habs; discriminate Habs ].
Qed.

(** [handleSubmit] either stops after it has set the errors, or calls
    the handler on the parsed values, with no error set. *)
Lemma handleSubmit_cases (onValid : ContactFormData -> Async unit)
  (v : ContactFormData) :
  (exists d, zodResolver email_ok contactSchema v = (Some d, ∅)
             /\ handleSubmit email_ok onValid v = Do (SetErrors ∅) (onValid d))
  \/ (exists errs, errs <> ∅
        /\ zodResolver email_ok contactSchema v = (None, errs)
        /\ handleSubmit email_ok onValid v = Do (SetErrors errs) (Ret tt)).
Proof.
  unfold handleSubmit.
  destruct (zodResolver_errors_or_values v) as [[d Hd] | [errs [Hne He]]].
  - left. exists d. rewrite Hd. split; [reflexivity|].
    destruct (decide _) as [_|Hn]; [reflexivity | contradiction].
  - right. exists errs. rewrite He. auto.
Qed.

End Validation.

(** The messages of the four fields, as the resolver reports them. *)
Lemma zodResolver_messages (email_ok : jsstring -> bool) (v : ContactFormData) :
  let result := zodResolver email_ok contactSchema v in
  ((length (trim (name v)) <? 2) = true ->
     snd result !! "name" = Some "Digite seu nome completo.")
  /\ (email_ok (trim (email v)) = false ->
     snd result !! "email" = Some "Digite um e-mail válido.")
  /\ (test phone_regex (number v) = false ->
     snd result !! "number" = Some "Digite um número válido.")
  /\ ((length (trim (message v)) <? 5) = true ->
     snd result !! "message"
       = Some "A mensagem deve ter pelo menos 5 caracteres.")
  /\ ((length (trim (name v)) <? 2) = true
      \/ email_ok (trim (email v)) = false
      \/ test phone_regex (number v) = false
      \/ (length (trim (message v)) <? 5) = true ->
      fst result = None).
Proof.
  cbv zeta. rewrite zodResolver_contactSchema.
  destruct (length (trim (name v)) <? 2),
           (email_ok (trim (email v))),
           (test phone_regex (number v)),
           (length (trim (message v)) <? 5); cbn [app];
    repeat split; intros H; try discriminate H; try reflexivity;
    try (vm_compute; reflexivity).
  destruct H as [H|[H|[H|H]]]; discriminate H.
Qed.

(** C1. A form whose trimmed name is shorter than two characters,
    whose trimmed e-mail is not valid, whose number does not match
    the phone pattern or whose trimmed message is shorter than five
    characters does not pass the schema: the field at fault gets its
    message, and the handler given to [handleSubmit] is not called,
    so that a submit attempt issues no request and shows the
    errors. *)
Theorem C1_invalid_input_is_rejected
  (email_ok : jsstring -> bool) (v : ContactFormData) :
  let result := zodResolver email_ok contactSchema v in
  (length (trim (name v)) < 2 ->
     snd result !! "name" = Some "Digite seu nome completo.")
  /\ (email_ok (trim (email v)) = false ->
     snd result !! "email" = Some "Digite um e-mail válido.")
  /\ (test phone_regex (number v) = false ->
     snd result !! "number" = Some "Digite um número válido.")
  /\ (length (trim (message v)) < 5 ->
     snd result !! "message"
       = Some "A mensagem deve ter pelo menos 5 caracteres.")
  /\ (length (trim (name v)) < 2
      \/ email_ok (trim (email v)) = false
      \/ test phone_regex (number v) = false
      \/ length (trim (message v)) < 5 ->
      fst result = None
      /\ (forall onValid : ContactFormData -> Async unit,
            handleSubmit email_ok onValid v
            = Do (SetErrors (snd result)) (Ret tt))
      /\ (forall pg : Page,
            values (ui pg) = v ->
            sent (step email_ok pg Submit) = sent pg
            /\ pending (step email_ok pg Submit) = pending pg
            /\ (isSubmitting (ui pg) = false ->
                forall key,
                  fieldError key (ui (step email_ok pg Submit))
                  = snd result !! key))).
Proof.
  pose proof (zodResolver_messages email_ok v) as Hm. cbv zeta in *.
  rewrite <- !Nat.ltb_lt.
  destruct Hm as (H1 & H2 & H3 & H4 & Hnone).
  repeat (split; [assumption|]).
  intros Hbad. specialize (Hnone Hbad).
  assert (Hhs : forall onValid : ContactFormData -> Async unit,
             handleSubmit email_ok onValid v
             = Do (SetErrors (snd (zodResolver email_ok contactSchema v)))
                  (Ret tt)).
  { intros onValid.
    destruct (handleSubmit_cases email_ok onValid v)
      as [(d & Hd & _) | (errs & _ & He & Hh)].
    - rewrite Hd in Hnone. discriminate Hnone.
    - rewrite Hh, He. reflexivity. }
  split; [assumption | split; [assumption|]].
  intros pg Hv. unfold step.
  destruct (disabled (submitButton (ui pg))) eqn:Hdis.
  - repeat split. intros Hs. simpl in Hdis. congruence.
  - rewrite Hv, Hhs. unfold launch. simpl. repeat split.
Qed.

Lemma C1_witness :
  snd (zodResolver has_at_sign contactSchema shortName) !! "name"
    = Some "Digite seu nome completo."
  /\ snd (zodResolver has_at_sign contactSchema shortName) !! "number"
    = Some "Digite um número válido."
  /\ sent (step has_at_sign
             (mkPage (mkState shortName ∅ false None []) [] []) Submit)
     = [].
Proof.
  destruct (C1_invalid_input_is_rejected has_at_sign shortName)
    as (Hname & _ & Hnumber & _ & Hall).
  split; [| split].
  - apply Hname. vm_compute. lia.
  - apply Hnumber. reflexivity.
  - destruct Hall as (_ & _ & Hpg).
    + left. vm_compute. lia.
    + apply (Hpg (mkPage (mkState shortName ∅ false None []) [] [])).
      reflexivity.
Defined.

(** ** One run of the submission handler *)

(** The request of a submission. *)
Lemma onSubmit_unfold (data : ContactFormData) :
  exists k : FetchOutcome -> Async unit,
    onSubmit data
    = Do (SetIsSubmitting true)
        (Do (SetStatus None)
           (Await (mkRequest "/api/send-email" "POST"
                     [("Content-Type", "application/json")]
                     (Json.stringify data)) k))
    /\ (forall resp, ok resp = true ->
          k (Resolved resp)
          = Do (SetStatus (Some StatusSuccess))
              (Do ResetForm (Do (SetIsSubmitting false) (Ret tt))))
    /\ (forall resp, ok resp = false ->
          k (Resolved resp)
          = Do (SetStatus (Some StatusError))
              (Do (SetIsSubmitting false) (Ret tt)))
    /\ (forall reason,
          k (Rejected reason)
          = Do (ConsoleError "Submission error:" reason)
              (Do (SetStatus (Some StatusError))
                 (Do (SetIsSubmitting false) (Ret tt)))).
Proof.
  eexists. split; [reflexivity|].
  split; [| split].
  - intros resp Hok. cbn. rewrite Hok. reflexivity.
  - intros resp Hok. cbn. rewrite Hok. reflexivity.
  - intros reason. reflexivity.
Qed.

(** The request a submission issues for the data it is given. *)
Lemma run_onSubmit (net : Request -> FetchOutcome)
  (data : ContactFormData) (st : State) (log : list Request) :
  let req := mkRequest "/api/send-email" "POST"
               [("Content-Type", "application/json")] (Json.stringify data) in
  run net (onSubmit data) st log =
    match net req with
    | Resolved resp =>
        if ok resp
        then (mkState emptyData ∅ false (Some StatusSuccess) (console st),
              log ++ [req], inr tt)
        else (mkState (values st) (errors st) false (Some StatusError)
                      (console st),
              log ++ [req], inr tt)
    | Rejected reason =>
        (mkState (values st) (errors st) false (Some StatusError)
                 (console st ++ [String.append "Submission error:"
                                   (String.append " " reason)]),
         log ++ [req], inr tt)
    end.
Proof.
  cbv zeta. unfold onSubmit, fetch, setIsSubmitting, setStatus, effect.
  cbn [run bind finally try_catch].
  destruct (net _) as [resp | reason].
  - cbn [run bind finally try_catch].
    destruct (ok resp); reflexivity.
  - reflexivity.
Qed.

Lemma ok_range (resp : Response) :
  ok resp = true <-> (200 <= resp_status resp <= 299)%N.
Proof.
  unfold ok. rewrite andb_true_iff, !N.leb_le. tauto.
Qed.

(** C2. A run of the submission handler ends with status "success"
    and an empty form when the response is in the 2xx range; when the
    response is outside of it, or when the request throws, it ends
    with status "error", the values of the fields as they were, and
    the one generic message, the same in both cases. *)
Theorem C2_submission_outcome
  (data : ContactFormData) (st : State) (log : list Request) :
  let req := mkRequest "/api/send-email" "POST"
               [("Content-Type", "application/json")] (Json.stringify data) in
  let final := fun net => fst (fst (run net (onSubmit data) st log)) in
  (forall net resp,
      net req = Resolved resp ->
      (200 <= resp_status resp <= 299)%N ->
      status (final net) = Some StatusSuccess
      /\ values (final net) = mkData [] [] [] []
      /\ statusLine (final net) = Some "Mensagem enviada com sucesso!")
  /\ (forall net resp,
      net req = Resolved resp ->
      ~ (200 <= resp_status resp <= 299)%N ->
      status (final net) = Some StatusError
      /\ values (final net) = values st
      /\ statusLine (final net) = Some "Erro ao enviar. Tente novamente.")
  /\ (forall net reason,
      net req = Rejected reason ->
      status (final net) = Some StatusError
      /\ values (final net) = values st
      /\ statusLine (final net) = Some "Erro ao enviar. Tente novamente.")
  /\ (forall net1 net2 resp reason,
      net1 req = Resolved resp ->
      ~ (200 <= resp_status resp <= 299)%N ->
      net2 req = Rejected reason ->
      values (final net1) = values (final net2)
      /\ errors (final net1) = errors (final net2)
      /\ isSubmitting (final net1) = isSubmitting (final net2)
      /\ status (final net1) = status (final net2)
      /\ statusLine (final net1) = statusLine (final net2)).
Proof.
  cbv zeta. split; [| split; [| split]].
  - intros net resp Hnet Hok. apply ok_range in Hok.
    rewrite run_onSubmit. cbv zeta. rewrite Hnet, Hok. repeat split.
  - intros net resp Hnet Hok. rewrite <- ok_range in Hok.
    apply not_true_is_false in Hok.
    rewrite run_onSubmit. cbv zeta. rewrite Hnet, Hok. repeat split.
  - intros net reason Hnet.
    rewrite run_onSubmit. cbv zeta. rewrite Hnet. repeat split.
  - intros net1 net2 resp reason Hnet1 Hok Hnet2. rewrite <- ok_range in Hok.
    apply not_true_is_false in Hok.
    rewrite !run_onSubmit. cbv zeta. rewrite Hnet1, Hnet2, Hok. repeat split.
Qed.

Lemma C2_witness :
  status (fst (fst (run (fun _ => Resolved (mkResponse 204 []))
                        (onSubmit buzz)
                        (mkState buzz ∅ false None []) [])))
  = Some StatusSuccess
  /\ values (fst (fst (run (fun _ => Resolved (mkResponse 500 (lit "oops")))
                           (onSubmit buzz)
                           (mkState buzz ∅ false None []) [])))
     = buzz
  /\ statusLine (fst (fst (run (fun _ => Rejected "Failed to fetch")
                               (onSubmit buzz)
                               (mkState buzz ∅ false None []) [])))
     = Some "Erro ao enviar. Tente novamente.".
Proof.
  destruct (C2_submission_outcome buzz (mkState buzz ∅ false None []) [])
    as (H2xx & Hnot & Hthrow & _).
  split; [| split].
  - apply (H2xx (fun _ => Resolved (mkResponse 204 [])) (mkResponse 204 []));
      [reflexivity | simpl; lia].
  - apply (Hnot (fun _ => Resolved (mkResponse 500 (lit "oops")))
                (mkResponse 500 (lit "oops")));
      [reflexivity | simpl; lia].
  - apply (Hthrow (fun _ => Rejected "Failed to fetch") "Failed to fetch").
    reflexivity.
Defined.

(** A submission runs up to its request, and what is left of it
    settles. *)
Lemma onSubmit_suspends (data : ContactFormData) (st : State) :
  exists k,
    run_to_await (onSubmit data) st
    = Suspended (mkState (values st) (errors st) true None (console st))
        (mkRequest "/api/send-email" "POST"
           [("Content-Type", "application/json")] (Json.stringify data))
        k
    /\ settles k.
Proof.
  eexists. split; [reflexivity|].
  intros [resp | reason] st'.
  - cbn [bind finally try_catch run_to_await].
    destruct (ok resp); eexists; split; reflexivity.
  - eexists. split; reflexivity.
Qed.

(** C5. One run of the submission handler issues one request and no
    more: a POST to ["/api/send-email"] with the JSON content type,
    whose body is the serialization of the data.  The body of the
    response plays no part.  For the valid input of the specification
    the body is the expected text, and submitting the form that holds
    it sends that one request. *)
Theorem C5_one_request (data : ContactFormData) (st : State)
  (log : list Request) :
  (forall net,
      snd (fst (run net (onSubmit data) st log))
      = log ++ [mkRequest "/api/send-email" "POST"
                  [("Content-Type", "application/json")]
                  (Json.stringify data)])
  /\ (forall code body1 body2,
        run (fun _ => Resolved (mkResponse code body1)) (onSubmit data) st log
        = run (fun _ => Resolved (mkResponse code body2)) (onSubmit data)
              st log)
  /\ Json.stringify buzz = buzz_json
  /\ (forall email_ok : jsstring -> bool,
        email_ok (email buzz) = true ->
        sent (steps email_ok initialPage buzz_events)
        = [mkRequest "/api/send-email" "POST"
             [("Content-Type", "application/json")] buzz_json]).
Proof.
  split; [| split; [| split]].
  - intros net. rewrite run_onSubmit. cbv zeta.
    destruct (net _) as [resp|reason]; [destruct (ok resp)|]; reflexivity.
  - intros code body1 body2. rewrite !run_onSubmit. reflexivity.
  - vm_compute. reflexivity.
  - intros email_ok Hok.
    unfold steps, buzz_events.
    cbn [fold_left].
    set (pg := step email_ok _ BlurMessage).
    assert (Hv : values (ui pg) = buzz) by reflexivity.
    assert (Hs : isSubmitting (ui pg) = false) by reflexivity.
    assert (Hsent : sent pg = []) by reflexivity.
    clearbody pg.
    unfold step. cbn [submitButton disabled]. rewrite Hs, Hv.
    destruct (handleSubmit_cases email_ok onSubmit buzz)
      as [(d & Hd & Hh) | (errs & Hne & He & _)].
    + rewrite Hh. unfold launch. cbn [run_to_await].
      destruct (onSubmit_suspends d (apply_effect (SetErrors ∅) (ui pg)))
        as (k & Hk & _).
      rewrite Hk. cbn [sent]. rewrite Hsent.
      rewrite zodResolver_contactSchema in Hd.
      change (trim (email buzz)) with (email buzz) in Hd. rewrite Hok in Hd.
      vm_compute in Hd. injection Hd as <-. reflexivity.
    + rewrite zodResolver_contactSchema in He.
      change (trim (email buzz)) with (email buzz) in He. rewrite Hok in He.
      vm_compute in He. discriminate He.
Qed.

Lemma C5_witness :
  sent (steps has_at_sign initialPage buzz_events)
  = [mkRequest "/api/send-email" "POST"
       [("Content-Type", "application/json")] buzz_json].
Proof.
  apply (proj2 (proj2 (proj2 (C5_one_request buzz initialState [])))).
  reflexivity.
Defined.

(** C6. A run of the submission handler starts by setting
    [isSubmitting] to true and the status to null, and only then
    issues its request; whatever the request comes to, a response or
    a rejection, the run ends after it has set [isSubmitting] back to
    false. *)
Theorem C6_isSubmitting_brackets_the_run (data : ContactFormData) :
  exists (req : Request) (k : FetchOutcome -> Async unit),
    onSubmit data
    = Do (SetIsSubmitting true) (Do (SetStatus None) (Await req k))
    /\ (forall st,
          exists st1,
            run_to_await (onSubmit data) st = Suspended st1 req k
            /\ isSubmitting st1 = true /\ status st1 = None)
    /\ (forall o st,
          exists st2,
            run_to_await (k o) st = Finished st2 (inr tt)
            /\ isSubmitting st2 = false)
    /\ (forall net st log,
          isSubmitting (fst (fst (run net (onSubmit data) st log))) = false
          /\ snd (run net (onSubmit data) st log) = inr tt).
Proof.
  eexists. eexists. split; [reflexivity|].
  split; [| split].
  - intros st. eexists. split; [reflexivity|]. split; reflexivity.
  - intros [resp | reason] st.
    + cbn [bind finally try_catch run_to_await].
      destruct (ok resp); eexists; split; reflexivity.
    + eexists. split; reflexivity.
  - intros net st log. rewrite run_onSubmit. cbv zeta.
    destruct (net _) as [resp|reason]; [destruct (ok resp)|]; split; reflexivity.
Qed.

(** ** Mutual exclusion of the submissions *)

Lemma exclusive_initial : exclusive initialPage.
Proof. left. split; reflexivity. Qed.

(** A submit attempt on an enabled control either leaves nothing in
    flight, when the values do not pass the schema, or puts one
    request in flight. *)
Lemma launch_handleSubmit (email_ok : jsstring -> bool) (pg : Page) :
  isSubmitting (ui pg) = false ->
  let pg' := launch (handleSubmit email_ok onSubmit (values (ui pg))) pg in
  (pending pg' = pending pg /\ sent pg' = sent pg
   /\ isSubmitting (ui pg') = false)
  \/ (exists r k, pending pg' = pending pg ++ [(r, k)]
                  /\ sent pg' = sent pg ++ [r]
                  /\ isSubmitting (ui pg') = true
                  /\ settles k).
Proof.
  intros Hs. cbv zeta.
  destruct (handleSubmit_cases email_ok onSubmit (values (ui pg)))
    as [(d & _ & Hh) | (errs & _ & _ & Hh)]; rewrite Hh; unfold launch;
    cbn [run_to_await].
  - right.
    destruct (onSubmit_suspends d (apply_effect (SetErrors ∅) (ui pg)))
      as (k & Hk & Hsettles).
    rewrite Hk. eexists. exists k.
    cbn [pending sent ui isSubmitting]. auto.
  - left. cbn [pending sent ui isSubmitting apply_effect]. auto.
Qed.

Lemma exclusive_step (email_ok : jsstring -> bool) (pg : Page) (ev : Event) :
  exclusive pg -> exclusive (step email_ok pg ev).
Proof.
  intros Hg. destruct ev as [key v | | | | i o]; try exact Hg.
  - (* a submit attempt *)
    unfold step. destruct (disabled (submitButton (ui pg))) eqn:Hdis;
      [exact Hg|].
    cbn in Hdis.
    destruct Hg as [[Hp Hs] | (r & k & _ & Hs & _)]; [| congruence].
    destruct (launch_handleSubmit email_ok pg Hs)
      as [(Hp' & _ & Hs') | (r & k & Hp' & _ & Hs' & Hk)].
    + left. split; [congruence | assumption].
    + right. exists r, k. rewrite Hp', Hp. auto.
  - (* a request settles *)
    unfold step.
    destruct Hg as [[Hp Hs] | (r & k & Hp & Hs & Hk)]; rewrite Hp.
    + destruct i; cbn; left; auto.
    + destruct i as [|i]; cbn; [| right; exists r, k; auto].
      destruct (Hk o (ui pg)) as (st' & Hrun & Hs').
      unfold launch. cbn [ui pending sent]. rewrite Hrun.
      left. split; [reflexivity | assumption].
Qed.

Lemma exclusive_steps (email_ok : jsstring -> bool) (evs : list Event) (pg : Page) :
  exclusive pg -> exclusive (steps email_ok pg evs).
Proof.
  revert pg. induction evs as [|ev evs IH]; intros pg Hg; [exact Hg|].
  apply IH, exclusive_step, Hg.
Qed.

Lemma steps_app (email_ok : jsstring -> bool) (pg : Page)
  (evs evs' : list Event) :
  steps email_ok pg (evs ++ evs')
  = steps email_ok (steps email_ok pg evs) evs'.
Proof. apply fold_left_app. Qed.

(** C7. While [isSubmitting] is true the submit control is rendered
    disabled, a submit attempt then changes nothing and issues no
    request, and at every moment of the life of the form at most one
    request is in flight, the form being in its submitting state as
    long as one is. *)
Theorem C7_one_submission_at_a_time (email_ok : jsstring -> bool) :
  (forall st, isSubmitting st = true -> disabled (submitButton st) = true)
  /\ (forall pg,
        isSubmitting (ui pg) = true ->
        step email_ok pg Submit = pg)
  /\ (forall evs,
        length (pending (steps email_ok initialPage evs)) <= 1
        /\ (pending (steps email_ok initialPage evs) <> [] ->
            isSubmitting (ui (steps email_ok initialPage evs)) = true
            /\ disabled (submitButton (ui (steps email_ok initialPage evs)))
               = true
            /\ sent (steps email_ok initialPage (evs ++ [Submit]))
               = sent (steps email_ok initialPage evs))).
Proof.
  split; [| split].
  - intros st H. exact H.
  - intros pg H. unfold step. cbn. rewrite H. reflexivity.
  - intros evs.
    pose proof (exclusive_steps email_ok evs initialPage exclusive_initial) as Hg.
    rewrite steps_app.
    change (steps email_ok ?p [Submit]) with (step email_ok p Submit).
    set (pg := steps email_ok initialPage evs) in *. clearbody pg.
    destruct Hg as [[Hp Hs] | (r & k & Hp & Hs & _)]; rewrite Hp.
    + split; [simpl; lia | intros Hne; contradiction].
    + split; [simpl; lia |]. intros _.
      split; [assumption | split; [exact Hs |]].
      unfold step. cbn. rewrite Hs. reflexivity.
Qed.

Lemma C7_witness :
  step has_at_sign (steps has_at_sign initialPage buzz_events) Submit
  = steps has_at_sign initialPage buzz_events
  /\ sent (steps has_at_sign initialPage (buzz_events ++ [Submit]))
     = sent (steps has_at_sign initialPage buzz_events).
Proof.
  destruct (C7_one_submission_at_a_time has_at_sign) as (_ & Hstep & Hall).
  split.
  - apply Hstep. reflexivity.
  - apply (Hall buzz_events). vm_compute. discriminate.
Defined.

(** ** The clean-up of the particle background *)

(** Induction on an element with the property known for its
    children. *)
Lemma element_children_ind (P : Dom.element -> Prop) :
  (forall j t s cs, Forall P cs -> P (Dom.Element j t s cs)) ->
  forall e, P e.
Proof.
  intros H. fix IH 1. intros [j t s cs]. apply H.
  revert cs. fix IHcs 1. intros [|c cs].
  - constructor.
  - constructor; [apply IH | apply IHcs].
Qed.

Lemma subtree_unfold (e : Dom.element) :
  Dom.subtree e = e :: Dom.elements (Dom.children e).
Proof. destruct e. reflexivity. Qed.

Lemma prune_same_node (i : nat) (e : Dom.element) :
  Dom.same_node (Dom.prune i e) e.
Proof. destruct e. repeat split. Qed.

Lemma selects_same_node (t : string) (pat : jsstring) (x y : Dom.element) :
  Dom.same_node x y -> Dom.selects t pat x = Dom.selects t pat y.
Proof.
  intros (_ & Ht & Hs). unfold Dom.selects. rewrite Ht, Hs. reflexivity.
Qed.

Lemma elements_pruned (i : nat) (l : list Dom.element) :
  Forall (Dom.pruned_well i) l ->
  forall x,
    In x (Dom.elements
            (List.filter (fun c => negb (Dom.elt_id c =? i))
                         (List.map (Dom.prune i) l))) ->
    Dom.elt_id x <> i
    /\ exists y, In y (Dom.elements l) /\ Dom.same_node x y.
Proof.
  induction 1 as [|c l [Hbelow Hsame] _ IH]; intros x Hx; [destruct Hx|].
  cbn [List.map List.filter] in Hx.
  assert (Hrest : In x (Dom.elements
                          (List.filter (fun c => negb (Dom.elt_id c =? i))
                                       (List.map (Dom.prune i) l))) ->
                  Dom.elt_id x <> i
                  /\ exists y, In y (Dom.elements (c :: l))
                               /\ Dom.same_node x y).
  { intros Hin. destruct (IH x Hin) as (Hne & y & Hy & Hxy).
    split; [exact Hne|]. exists y. split; [| exact Hxy].
    unfold Dom.elements. cbn [flat_map]. apply in_or_app. right. exact Hy. }
  destruct (negb (Dom.elt_id (Dom.prune i c) =? i)) eqn:Hkeep;
    [| exact (Hrest Hx)].
  unfold Dom.elements in Hx. cbn [flat_map] in Hx.
  apply in_app_or in Hx. destruct Hx as [Hx | Hx]; [| exact (Hrest Hx)].
  split.
  - rewrite subtree_unfold in Hx. destruct Hx as [<- | Hx].
    + apply negb_true_iff, Nat.eqb_neq in Hkeep. exact Hkeep.
    + apply Hbelow, Hx.
  - destruct (Hsame x Hx) as (y & Hy & Hxy).
    exists y. split; [| exact Hxy].
    unfold Dom.elements. cbn [flat_map]. apply in_or_app. left. exact Hy.
Qed.

Lemma prune_well (i : nat) (e : Dom.element) : Dom.pruned_well i e.
Proof.
  induction e as [j t s cs IH] using element_children_ind.
  pose proof (elements_pruned i cs IH) as Hcs.
  split.
  - intros x Hx. apply (Hcs x Hx).
  - intros x Hx. rewrite subtree_unfold in Hx. destruct Hx as [<- | Hx].
    + exists (Dom.Element j t s cs). split; [left; reflexivity|].
      apply prune_same_node.
    + destruct (Hcs x Hx) as (_ & y & Hy & Hxy).
      exists y. split; [right; exact Hy | exact Hxy].
Qed.

(** After [removeChild] the document holds nothing of that identity,
    and only nodes that it held before. *)
Lemma removeChild_document (i : nat) (d : Dom.Document) (x : Dom.element) :
  In x (Dom.elements (Dom.document (Dom.removeChild i d))) ->
  Dom.elt_id x <> i
  /\ exists y, In y (Dom.elements (Dom.document d)) /\ Dom.same_node x y.
Proof.
  apply elements_pruned. apply List.Forall_forall. intros c _.
  apply prune_well.
Qed.

(** A node of a forest is one of its roots or the child of one of its
    nodes. *)
Lemma subtree_child (e x : Dom.element) :
  In x (Dom.subtree e) ->
  x = e \/ exists p, In p (Dom.subtree e) /\ In x (Dom.children p).
Proof.
  induction e as [j t s cs IH] using element_children_ind.
  intros Hx. rewrite subtree_unfold in Hx. destruct Hx as [<- | Hx];
    [left; reflexivity | right].
  unfold Dom.elements in Hx. apply in_flat_map in Hx.
  destruct Hx as (c & Hc & Hx).
  rewrite List.Forall_forall in IH.
  destruct (IH c Hc Hx) as [-> | (p & Hp & Hxp)].
  - exists (Dom.Element j t s cs). split; [left; reflexivity | exact Hc].
  - exists p. split; [| exact Hxp].
    right. apply in_flat_map. exists c. split; assumption.
Qed.

Lemma has_parent_in_document (i : nat) (d : Dom.Document) (x : Dom.element) :
  In x (Dom.elements (Dom.document d)) ->
  Dom.elt_id x = i ->
  Dom.has_parent i d = true.
Proof.
  intros Hx Hid. unfold Dom.has_parent.
  unfold Dom.elements in Hx at 1. apply in_flat_map in Hx.
  destruct Hx as (r & Hr & Hx).
  apply orb_true_iff.
  destruct (subtree_child r x Hx) as [-> | (p & Hp & Hxp)].
  - left. apply existsb_exists. exists r. split; [exact Hr|].
    apply Nat.eqb_eq, Hid.
  - right. apply existsb_exists. exists p. split.
    + apply in_or_app. left. apply in_flat_map. exists r. split; assumption.
    + apply existsb_exists. exists x. split; [exact Hxp|].
      apply Nat.eqb_eq, Hid.
Qed.

(** One turn of the loop: the script is not in the document any
    more, and the document has got nothing new. *)
Lemma remove_script_document (i : nat) (d : Dom.Document) (x : Dom.element) :
  In x (Dom.elements (Dom.document (Dom.remove_script d i))) ->
  Dom.elt_id x <> i
  /\ exists y, In y (Dom.elements (Dom.document d)) /\ Dom.same_node x y.
Proof.
  unfold Dom.remove_script.
  destruct (Dom.has_parent i d) eqn:Hp.
  - apply removeChild_document.
  - intros Hx. split.
    + intros Hid. rewrite (has_parent_in_document i d x Hx Hid) in Hp.
      discriminate Hp.
    + exists x. split; [exact Hx | repeat split].
Qed.

Lemma same_node_trans (x y z : Dom.element) :
  Dom.same_node x y -> Dom.same_node y z -> Dom.same_node x z.
Proof.
  intros (H1 & H2 & H3) (H4 & H5 & H6). repeat split; congruence.
Qed.

(** The whole loop, on any list of scripts. *)
Lemma remove_scripts_document (ids : list nat) (d : Dom.Document)
  (x : Dom.element) :
  In x (Dom.elements (Dom.document (fold_left Dom.remove_script ids d))) ->
  ~ In (Dom.elt_id x) ids
  /\ exists y, In y (Dom.elements (Dom.document d)) /\ Dom.same_node x y.
Proof.
  revert d. induction ids as [|i ids IH]; intros d Hx.
  - split; [intros [] |]. exists x. split; [exact Hx | repeat split].
  - cbn [fold_left] in Hx.
    destruct (IH _ Hx) as (Hnot & y & Hy & Hxy).
    destruct (remove_script_document i d y Hy) as (Hne & z & Hz & Hyz).
    split.
    + intros [Heq | Hin]; [| exact (Hnot Hin)].
      apply Hne. destruct Hxy as (Hid & _). congruence.
    + exists z. split; [exact Hz | exact (same_node_trans x y z Hxy Hyz)].
Qed.

(** After the clean-up the selector finds nothing in the document. *)
Lemma cleanup_selects_nothing (d : Dom.Document) (x : Dom.element) :
  In x (Dom.elements (Dom.document (Dom.cleanup d))) ->
  Dom.selects "script" (lit "particles.min.js") x = false.
Proof.
  intros Hx. unfold Dom.cleanup in Hx.
  destruct (remove_scripts_document _ d x Hx) as (Hnot & y & Hy & Hxy).
  destruct (Dom.selects "script" (lit "particles.min.js") x) eqn:Hsel;
    [exfalso | reflexivity].
  apply Hnot. destruct Hxy as (Hid & Hrest). rewrite Hid.
  unfold Dom.querySelectorAll. apply in_map, List.filter_In.
  split; [exact Hy|].
  rewrite <- (selects_same_node _ _ x y); [exact Hsel | repeat split; tauto].
Qed.

(** C8. After the clean-up of the background no script element whose
    source is the address of the engine is left in the document: the
    selector of the clean-up finds every such element, each of them
    is taken out of its parent, and the selector finds nothing
    afterwards. *)
Theorem C8_cleanup_removes_the_scripts (d : Dom.Document) :
  existsb (Dom.selects "script" (lit "particles.min.js"))
          (Dom.elements (Dom.document (Dom.cleanup d))) = false
  /\ Dom.querySelectorAll "script" (lit "particles.min.js") (Dom.cleanup d)
     = []
  /\ (forall x,
        In x (Dom.elements (Dom.document (Dom.cleanup d))) ->
        ~ (Dom.tag x = "script" /\ Dom.src x = Some Dom.cdn_url))
  /\ (forall x,
        In x (Dom.elements (Dom.document d)) ->
        Dom.tag x = "script" -> Dom.src x = Some Dom.cdn_url ->
        In (Dom.elt_id x)
           (Dom.querySelectorAll "script" (lit "particles.min.js") d)).
Proof.
  assert (Hnone : forall x,
             In x (Dom.elements (Dom.document (Dom.cleanup d))) ->
             Dom.selects "script" (lit "particles.min.js") x = false)
    by apply cleanup_selects_nothing.
  assert (Hcdn : forall x,
             Dom.tag x = "script" -> Dom.src x = Some Dom.cdn_url ->
             Dom.selects "script" (lit "particles.min.js") x = true).
  { intros x Ht Hs. unfold Dom.selects. rewrite Ht, Hs. reflexivity. }
  split; [| split; [| split]].
  - apply not_true_is_false. intros H. apply existsb_exists in H.
    destruct H as (x & Hx & Hsel). rewrite (Hnone x Hx) in Hsel.
    discriminate Hsel.
  - unfold Dom.querySelectorAll.
    destruct (List.filter _ _) as [|x l] eqn:Hf; [reflexivity | exfalso].
    assert (Hin : In x (x :: l)) by (left; reflexivity).
    rewrite <- Hf in Hin. apply List.filter_In in Hin.
    destruct Hin as [Hx Hsel]. rewrite (Hnone x Hx) in Hsel.
    discriminate Hsel.
  - intros x Hx [Ht Hs]. specialize (Hnone x Hx).
    rewrite (Hcdn x Ht Hs) in Hnone. discriminate Hnone.
  - intros x Hx Ht Hs. unfold Dom.querySelectorAll.
    apply in_map, List.filter_In. split; [exact Hx | exact (Hcdn x Ht Hs)].
Qed.

Lemma C8_witness :
  In 7 (Dom.querySelectorAll "script" (lit "particles.min.js")
          (Dom.loadParticlesScript 7 3 Dom.page))
  /\ ~ (Dom.tag (Dom.Element 5 "script" (Some (lit "/static/app.js")) [])
        = "script"
        /\ Dom.src (Dom.Element 5 "script" (Some (lit "/static/app.js")) [])
           = Some Dom.cdn_url)
  /\ List.map Dom.elt_id
       (Dom.elements
          (Dom.document (Dom.cleanup (Dom.loadParticlesScript 7 3 Dom.page))))
     = [1; 2; 5; 3; 4].
Proof.
  destruct (C8_cleanup_removes_the_scripts
              (Dom.loadParticlesScript 7 3 Dom.page))
    as (_ & _ & Hleft & Hfound).
  split; [| split].
  - apply (Hfound (Dom.Element 7 "script" (Some Dom.cdn_url) []));
      [vm_compute; tauto | reflexivity | reflexivity].
  - apply Hleft. vm_compute. tauto.
  - reflexivity.
Defined.

(* ================================================================== *)
(** * Further properties of the code *)
(* ================================================================== *)

(** ** Phone formatting beyond the claims *)

(** A string that matches the phone pattern holds ten digits at
    least. *)
Lemma phone_regex_digits (t : jsstring) :
  test phone_regex t = true -> 10 <= length (replace_non_digits t).
Proof.
  intros H. apply phone_regex_inv in H.
  destruct H as (d0 & d1 & d2 & d3 & d4 & d5 & d6 & d7 & d8 & d9 & rest
                 & Hall & Hlen & ->).
  destruct rest as [|d [|? ?]]; simpl in Hlen; try lia;
    repeat match goal with
           | F : Forall _ (_ :: _) |- _ => inversion F; subst; clear F
           | F : Forall _ (_ ++ _) |- _ => simpl in F
           end;
    eval_digits; simpl; lia.
Qed.

(** X1. With two to nine digits in the input the result is the
    opening of the format, ["(DD) "], followed by the remaining
    digits: every digit of the input is kept, in order, and the
    result does not yet match the pattern of the schema. *)
Theorem X1_formatPhoneNumber_partial (s : jsstring) :
  2 <= length (replace_non_digits s) < 10 ->
  formatPhoneNumber s
  = lit "(" ++ firstn 2 (replace_non_digits s) ++ lit ") "
            ++ skipn 2 (replace_non_digits s)
  /\ replace_non_digits (formatPhoneNumber s) = replace_non_digits s
  /\ length (formatPhoneNumber s) = length (replace_non_digits s) + 3
  /\ test phone_regex (formatPhoneNumber s) = false.
Proof.
  intros Hlen.
  assert (Hd : replace_non_digits (formatPhoneNumber s) = replace_non_digits s).
  { rewrite digits_of_formatPhoneNumber. apply firstn_all2. lia. }
  assert (Hf : formatPhoneNumber s
               = lit "(" ++ firstn 2 (replace_non_digits s) ++ lit ") "
                         ++ skipn 2 (replace_non_digits s)).
  { unfold formatPhoneNumber.
    destruct (11 <=? _) eqn:E1; [apply Nat.leb_le in E1; lia|].
    destruct (10 <=? _) eqn:E2; [apply Nat.leb_le in E2; lia|].
    destruct (2 <=? _) eqn:E3; [reflexivity | apply Nat.leb_gt in E3; lia]. }
  split; [exact Hf | split; [exact Hd | split]].
  - rewrite Hf. rewrite !length_app, length_firstn, length_skipn.
    change (length (lit "(")) with 1. change (length (lit ") ")) with 2. lia.
  - apply not_true_is_false. intros Hm.
    apply phone_regex_digits in Hm. rewrite Hd in Hm. lia.
Qed.

Lemma X1_witness :
  formatPhoneNumber (lit "11 9876") = lit "(11) 9876"
  /\ test phone_regex (formatPhoneNumber (lit "11 9876")) = false.
Proof.
  destruct (X1_formatPhoneNumber_partial (lit "11 9876")) as (Hf & _ & _ & Hm).
  - vm_compute. lia.
  - split; [rewrite Hf; reflexivity | exact Hm].
Defined.

(** X2. The formatted value passes the pattern of the schema exactly
    when the input holds ten digits or more: with fewer digits the
    value the blur handler writes back is one the schema rejects. *)
Theorem X2_formatted_matches_iff_ten_digits (s : jsstring) :
  test phone_regex (formatPhoneNumber s) = true
  <-> 10 <= length (replace_non_digits s).
Proof.
  split.
  - intros Hm. apply phone_regex_digits in Hm.
    rewrite digits_of_formatPhoneNumber, length_firstn in Hm. lia.
  - apply formatPhoneNumber_matches.
Qed.

Lemma X2_witness :
  test phone_regex (formatPhoneNumber (lit "tel 11 9876-5432")) = true
  /\ 10 <= length (replace_non_digits (lit "(11) 98765-4321")).
Proof.
  split.
  - apply (proj2 (X2_formatted_matches_iff_ten_digits
                    (lit "tel 11 9876-5432"))).
    vm_compute. lia.
  - apply (proj1 (X2_formatted_matches_iff_ten_digits
                    (lit "(11) 98765-4321"))).
    reflexivity.
Defined.

(** X3. Whatever the input, the result is made of digits of the
    input and of the four characters of the format only, it is at
    most fifteen code units long, and its digits are the first eleven
    digits of the input, in their order. *)
Theorem X3_formatPhoneNumber_output (s : jsstring) :
  Forall (fun c => (is_digit c = true /\ In c s) \/ In c (lit "() -"))
         (formatPhoneNumber s)
  /\ length (formatPhoneNumber s) <= 15
  /\ replace_non_digits (formatPhoneNumber s)
     = firstn 11 (replace_non_digits s).
Proof.
  split; [| split; [| apply digits_of_formatPhoneNumber]].
  - assert (Hall : Forall (fun c => is_digit c = true /\ In c s)
                          (replace_non_digits s)).
    { apply List.Forall_forall. intros c Hc.
      apply List.filter_In in Hc. tauto. }
    unfold formatPhoneNumber.
    set (ds := replace_non_digits s) in *. clearbody ds.
    split_digits ds 12;
      repeat match goal with
             | F : Forall _ (_ :: _) |- _ => inversion F; subst; clear F
             end;
      cbn;
      repeat (constructor;
              [first [left; assumption | right; simpl; tauto]|]);
      constructor.
  - unfold formatPhoneNumber.
    set (ds := replace_non_digits s). clearbody ds.
    split_digits ds 12; cbn; lia.
Qed.

(** X4. The pattern of the schema, read as a set of strings: an
    opening parenthesis, two digits, a closing parenthesis, a space,
    four or five digits, a hyphen and four digits, and nothing
    else. *)
Theorem X4_phone_regex_language (t : jsstring) :
  test phone_regex t = true
  <-> exists area first last,
        t = lit "(" ++ area ++ lit ") " ++ first ++ lit "-" ++ last
        /\ Forall (fun c => is_digit c = true) (area ++ first ++ last)
        /\ length area = 2
        /\ (length first = 4 \/ length first = 5)
        /\ length last = 4.
Proof.
  split.
  - intros H. apply phone_regex_inv in H.
    destruct H as (d0 & d1 & d2 & d3 & d4 & d5 & d6 & d7 & d8 & d9 & rest
                   & Hall & Hlen & ->).
    exists [d0; d1], ([d2; d3; d4; d5] ++ rest), [d6; d7; d8; d9].
    split; [reflexivity|].
    destruct rest as [|d [|? ?]]; cbn in Hlen; try lia;
      cbn in Hall;
      repeat match goal with
             | F : Forall _ (_ :: _) |- _ => inversion F; subst; clear F
             end;
      (split; [cbn; repeat constructor; assumption|]);
      cbn; auto.
  - intros (area & first & last & -> & Hall & Ha & Hf & Hl).
    destruct area as [|d0 [|d1 [|? ?]]]; try discriminate Ha.
    destruct last as [|d6 [|d7 [|d8 [|d9 [|? ?]]]]]; try discriminate Hl.
    destruct first as [|d2 [|d3 [|d4 [|d5 rest]]]];
      try (cbn in Hf; lia).
    assert (Hrest : length rest <= 1) by (cbn in Hf; lia).
    apply (phone_regex_intro d0 d1 d2 d3 d4 d5 d6 d7 d8 d9 rest);
      [| exact Hrest].
    destruct rest as [|d [|? ?]]; cbn in Hrest; try lia;
      cbn in Hall;
      repeat match goal with
             | F : Forall _ (_ :: _) |- _ => inversion F; subst; clear F
             end;
      cbn; repeat constructor; assumption.
Qed.

Lemma X4_witness :
  test phone_regex (lit "(11) 9876-5432") = true.
Proof.
  apply (proj2 (X4_phone_regex_language (lit "(11) 9876-5432"))).
  exists (lit "11"), (lit "9876"), (lit "5432").
  split; [reflexivity|].
  split; [repeat constructor|].
  split; [reflexivity | split; [left; reflexivity | reflexivity]].
Defined.

(** ** The schema beyond the claims *)

(** The errors of the resolver, key by key: the message of the first
    issue of that path. *)
Lemma toErrors_lookup (issues : list Zod.issue) (key : string) :
  toErrors issues !! key
  = Zod.issue_message
      <$> List.find (fun i => String.eqb (Zod.path i) key) issues.
Proof.
  unfold toErrors.
  assert (Hgen : forall (acc : gmap string string),
             fold_left
               (fun errs i =>
                  match errs !! Zod.path i with
                  | Some _ => errs
                  | None => <[Zod.path i := Zod.issue_message i]> errs
                  end) issues acc !! key
             = match acc !! key with
               | Some m => Some m
               | None =>
                   Zod.issue_message
                     <$> List.find (fun i => String.eqb (Zod.path i) key)
                           issues
               end).
  { induction issues as [|i issues IH]; intros acc; cbn [fold_left List.find].
    - destruct (acc !! key); reflexivity.
    - rewrite IH. destruct (String.eqb_spec (Zod.path i) key) as [Heq | Hne].
      + subst key. destruct (acc !! Zod.path i) eqn:Hacc.
        * rewrite Hacc. reflexivity.
        * rewrite lookup_insert_eq. reflexivity.
      + destruct (acc !! Zod.path i) eqn:Hacc; [reflexivity|].
        rewrite lookup_insert_ne by exact Hne. reflexivity. }
  rewrite Hgen, lookup_empty. reflexivity.
Qed.

(** The errors of the form, key by key. *)
Lemma resolver_errors_lookup (email_ok : jsstring -> bool)
  (v : ContactFormData) (key : string) :
  snd (zodResolver email_ok contactSchema v) !! key
  = if String.eqb "name" key then
      if length (trim (name v)) <? 2
      then Some "Digite seu nome completo." else None
    else if String.eqb "email" key then
      if email_ok (trim (email v))
      then None else Some "Digite um e-mail válido."
    else if String.eqb "number" key then
      if test phone_regex (number v)
      then None else Some "Digite um número válido."
    else if String.eqb "message" key then
      if length (trim (message v)) <? 5
      then Some "A mensagem deve ter pelo menos 5 caracteres." else None
    else None.
Proof.
  rewrite zodResolver_contactSchema.
  destruct (length (trim (name v)) <? 2),
           (email_ok (trim (email v))),
           (test phone_regex (number v)),
           (length (trim (message v)) <? 5); cbn [app snd];
    rewrite ?toErrors_lookup, ?lookup_empty;
    cbn [List.find Zod.path Zod.issue_message];
    repeat match goal with
           | |- context [String.eqb ?a key] =>
               destruct (String.eqb_spec a key) as [<- | ?]
           end;
    reflexivity.
Qed.

(** The parsed values, when there are any: the trimmed name, e-mail
    and message, the number as it is, and the checks hold on them. *)
Lemma resolver_values (email_ok : jsstring -> bool)
  (v d : ContactFormData) (errs : gmap string string) :
  zodResolver email_ok contactSchema v = (Some d, errs) ->
  d = mkData (trim (name v)) (trim (email v)) (number v) (trim (message v))
  /\ errs = ∅
  /\ accepted email_ok d.
Proof.
  rewrite zodResolver_contactSchema.
  destruct (length (trim (name v)) <? 2) eqn:E1,
           (email_ok (trim (email v))) eqn:E2,
           (test phone_regex (number v)) eqn:E3,
           (length (trim (message v)) <? 5) eqn:E4; cbn [app];
    intros H; try discriminate H.
  injection H as <- <-.
  apply Nat.ltb_ge in E1, E4.
  repeat split; assumption.
Qed.

Lemma resolver_accepts (email_ok : jsstring -> bool) (v : ContactFormData) :
  2 <= length (trim (name v)) ->
  email_ok (trim (email v)) = true ->
  test phone_regex (number v) = true ->
  5 <= length (trim (message v)) ->
  zodResolver email_ok contactSchema v
  = (Some (mkData (trim (name v)) (trim (email v)) (number v)
                  (trim (message v))), ∅).
Proof.
  intros H1 H2 H3 H4. rewrite zodResolver_contactSchema.
  apply Nat.ltb_ge in H1, H4. rewrite H1, H2, H3, H4. reflexivity.
Qed.

(** X5. The schema accepts exactly the inputs on which the four
    checks hold: the trimmed name has two code units at least, the
    trimmed e-mail is valid, the number matches the pattern and the
    trimmed message has five code units at least.  The handler then
    receives the parsed values, trimmed, and no error is set. *)
Theorem X5_valid_input_is_accepted
  (email_ok : jsstring -> bool) (v : ContactFormData) :
  let parsed := mkData (trim (name v)) (trim (email v)) (number v)
                       (trim (message v)) in
  ((2 <= length (trim (name v))
    /\ email_ok (trim (email v)) = true
    /\ test phone_regex (number v) = true
    /\ 5 <= length (trim (message v)))
   <-> zodResolver email_ok contactSchema v = (Some parsed, ∅))
  /\ (zodResolver email_ok contactSchema v = (Some parsed, ∅) ->
      forall onValid : ContactFormData -> Async unit,
        handleSubmit email_ok onValid v = Do (SetErrors ∅) (onValid parsed)).
Proof.
  cbv zeta. split; [split|].
  - intros (H1 & H2 & H3 & H4). apply resolver_accepts; assumption.
  - intros H. apply resolver_values in H.
    destruct H as (_ & _ & H1 & H2 & H3 & H4). cbn in H1, H2, H3, H4.
    repeat split; assumption.
  - intros H onValid. unfold handleSubmit. rewrite H.
    destruct (decide _) as [_|Hn]; [reflexivity | contradiction].
Qed.

Lemma X5_witness :
  zodResolver has_at_sign contactSchema
    (mkData (lit "  Buzz ") (lit " buzz@example.com") (lit "(11) 9876-5432")
            (lit "hello "))
  = (Some (mkData (lit "Buzz") (lit "buzz@example.com")
                  (lit "(11) 9876-5432") (lit "hello")), ∅).
Proof.
  apply (proj1 (proj1 (X5_valid_input_is_accepted has_at_sign
                   (mkData (lit "  Buzz ") (lit " buzz@example.com")
                           (lit "(11) 9876-5432") (lit "hello "))))).
  split; [vm_compute; lia | split; [reflexivity | split]];
    [reflexivity | vm_compute; lia].
Defined.

(** X6. The errors of the form are those of the fields at fault and
    no others: a field whose check holds has no error, and no error
    is ever set under another key than the four of the form. *)
Theorem X6_errors_only_where_at_fault
  (email_ok : jsstring -> bool) (v : ContactFormData) :
  let errs := snd (zodResolver email_ok contactSchema v) in
  (2 <= length (trim (name v)) -> errs !! "name" = None)
  /\ (email_ok (trim (email v)) = true -> errs !! "email" = None)
  /\ (test phone_regex (number v) = true -> errs !! "number" = None)
  /\ (5 <= length (trim (message v)) -> errs !! "message" = None)
  /\ (forall key,
        key <> "name" -> key <> "email" -> key <> "number" ->
        key <> "message" -> errs !! key = None).
Proof.
  cbv zeta. repeat split.
  - intros H. apply Nat.ltb_ge in H.
    rewrite resolver_errors_lookup.
    cbn [String.eqb Ascii.eqb Bool.eqb]. rewrite H. reflexivity.
  - intros H. rewrite resolver_errors_lookup.
    cbn [String.eqb Ascii.eqb Bool.eqb]. rewrite H. reflexivity.
  - intros H. rewrite resolver_errors_lookup.
    cbn [String.eqb Ascii.eqb Bool.eqb]. rewrite H. reflexivity.
  - intros H. apply Nat.ltb_ge in H.
    rewrite resolver_errors_lookup.
    cbn [String.eqb Ascii.eqb Bool.eqb]. rewrite H. reflexivity.
  - intros key H1 H2 H3 H4. rewrite resolver_errors_lookup.
    apply not_eq_sym, String.eqb_neq in H1, H2, H3, H4.
    rewrite H1, H2, H3, H4. reflexivity.
Qed.

Lemma X6_witness :
  snd (zodResolver has_at_sign contactSchema shortName) !! "email" = None
  /\ snd (zodResolver has_at_sign contactSchema shortName) !! "message" = None
  /\ snd (zodResolver has_at_sign contactSchema shortName) !! "phone" = None.
Proof.
  destruct (X6_errors_only_where_at_fault has_at_sign shortName)
    as (_ & Hemail & _ & Hmessage & Hother).
  split; [| split].
  - apply Hemail. reflexivity.
  - apply Hmessage. vm_compute. lia.
  - apply Hother; discriminate.
Defined.

(** *** Trimming *)

Lemma trim_start_idem (s : jsstring) : trim_start (trim_start s) = trim_start s.
Proof.
  induction s as [|c s IH]; [reflexivity|].
  cbn [trim_start]. destruct (is_space c) eqn:E; [exact IH|].
  cbn [trim_start]. rewrite E. reflexivity.
Qed.

Lemma trim_start_head (s : jsstring) :
  trim_start s = []
  \/ exists c t, trim_start s = c :: t /\ is_space c = false.
Proof.
  induction s as [|c s IH]; [left; reflexivity|].
  cbn [trim_start]. destruct (is_space c) eqn:E; [exact IH|].
  right. exists c, s. split; [reflexivity | exact E].
Qed.

Lemma trim_start_snoc (l : jsstring) (c : N) :
  is_space c = false -> trim_start (l ++ [c]) = trim_start l ++ [c].
Proof.
  intros Hc. induction l as [|a l IH]; cbn [trim_start app].
  - rewrite Hc. reflexivity.
  - destruct (is_space a); [exact IH | reflexivity].
Qed.

Lemma trim_end_cons (c : N) (t : jsstring) :
  is_space c = false -> trim_end (c :: t) = c :: trim_end t.
Proof.
  intros Hc. unfold trim_end. cbn [rev].
  rewrite (trim_start_snoc _ c Hc), rev_app_distr. reflexivity.
Qed.

Lemma trim_end_idem (s : jsstring) : trim_end (trim_end s) = trim_end s.
Proof.
  unfold trim_end. rewrite rev_involutive, trim_start_idem. reflexivity.
Qed.

(** A trimmed string is left as it is by [trim]. *)
Lemma trim_idem (s : jsstring) : trim (trim s) = trim s.
Proof.
  unfold trim.
  destruct (trim_start_head s) as [-> | (c & t & -> & Hc)]; [reflexivity|].
  rewrite (trim_end_cons c t Hc). cbn [trim_start]. rewrite Hc.
  rewrite <- (trim_end_cons c t Hc). apply trim_end_idem.
Qed.

(** X7. The values the schema hands to the handler are stable: the
    name, the e-mail and the message carry no white space at either
    end any more, and the schema accepts the parsed values as they
    are, without changing them again. *)
Theorem X7_parsed_values_are_stable
  (email_ok : jsstring -> bool) (v d : ContactFormData) :
  fst (zodResolver email_ok contactSchema v) = Some d ->
  trim (name d) = name d /\ trim (email d) = email d
  /\ trim (message d) = message d
  /\ zodResolver email_ok contactSchema d = (Some d, ∅).
Proof.
  intros H.
  destruct (zodResolver email_ok contactSchema v) as [parsed errs] eqn:Hr.
  cbn in H. subst parsed. apply resolver_values in Hr.
  destruct Hr as (-> & _ & H1 & H2 & H3 & H4). cbn in H1, H2, H3, H4.
  cbn [name email number message]. rewrite !trim_idem.
  repeat split.
  rewrite resolver_accepts; cbn [name email number message];
    rewrite ?trim_idem; try assumption.
  reflexivity.
Qed.

Lemma X7_witness :
  zodResolver has_at_sign contactSchema
    (mkData (lit "Buzz") (lit "buzz@example.com") (lit "(11) 9876-5432")
            (lit "hello"))
  = (Some (mkData (lit "Buzz") (lit "buzz@example.com")
                  (lit "(11) 9876-5432") (lit "hello")), ∅).
Proof.
  apply (X7_parsed_values_are_stable has_at_sign
           (mkData (lit "  Buzz ") (lit " buzz@example.com")
                   (lit "(11) 9876-5432") (lit "hello "))).
  reflexivity.
Defined.

(** ** The page beyond the claims *)

(** A submit attempt on an enabled control: either the values are at
    fault, the errors are set and nothing else happens, or the parsed
    values are sent, and the handler that waits will end as the
    answer of the network tells. *)
Lemma submit_enabled (email_ok : jsstring -> bool) (pg : Page) :
  isSubmitting (ui pg) = false ->
  (exists errs,
      errs <> ∅
      /\ zodResolver email_ok contactSchema (values (ui pg)) = (None, errs)
      /\ step email_ok pg Submit
         = mkPage (apply_effect (SetErrors errs) (ui pg))
                  (pending pg) (sent pg))
  \/ (exists d k,
        zodResolver email_ok contactSchema (values (ui pg)) = (Some d, ∅)
        /\ step email_ok pg Submit
           = mkPage (mkState (values (ui pg)) ∅ true None (console (ui pg)))
                    (pending pg ++ [(submission d, k)])
                    (sent pg ++ [submission d])
        /\ settles k
        /\ forall o st,
             run_to_await (k o) st
             = Finished
                 match o with
                 | Resolved resp =>
                     if ok resp
                     then mkState emptyData ∅ false (Some StatusSuccess)
                                  (console st)
                     else mkState (values st) (errors st) false
                                  (Some StatusError) (console st)
                 | Rejected reason =>
                     mkState (values st) (errors st) false (Some StatusError)
                       (console st ++ [String.append "Submission error:"
                                         (String.append " " reason)])
                 end
                 (inr tt)).
Proof.
  intros Hs. unfold step. cbn [submitButton disabled]. rewrite Hs.
  destruct (handleSubmit_cases email_ok onSubmit (values (ui pg)))
    as [(d & Hd & Hh) | (errs & Hne & He & Hh)]; rewrite Hh; unfold launch;
    cbn [run_to_await].
  - right.
    destruct (onSubmit_suspends d (apply_effect (SetErrors ∅) (ui pg)))
      as (k & Hk & Hsettles).
    exists d. eexists. split; [exact Hd|].
    split; [reflexivity|].
    split.
    + intros [resp | reason] st.
      * cbn [bind finally try_catch run_to_await].
        destruct (ok resp); eexists; split; reflexivity.
      * eexists. split; reflexivity.
    + intros [resp | reason] st.
      * cbn [bind finally try_catch run_to_await].
        destruct (ok resp); reflexivity.
      * reflexivity.
  - left. exists errs. auto.
Qed.

(** X8. A submit attempt on an enabled control, with values the
    schema accepts, sends one request whose body is the serialization
    of the parsed values, trimmed; the fields keep the values as they
    were typed, the errors are cleared, and the form is submitting
    with no status. *)
Theorem X8_submit_sends_parsed_values
  (email_ok : jsstring -> bool) (pg : Page) :
  isSubmitting (ui pg) = false ->
  2 <= length (trim (name (values (ui pg)))) ->
  email_ok (trim (email (values (ui pg)))) = true ->
  test phone_regex (number (values (ui pg))) = true ->
  5 <= length (trim (message (values (ui pg)))) ->
  sent (step email_ok pg Submit)
  = sent pg
    ++ [mkRequest "/api/send-email" "POST"
          [("Content-Type", "application/json")]
          (Json.stringify
             (mkData (trim (name (values (ui pg))))
                     (trim (email (values (ui pg))))
                     (number (values (ui pg)))
                     (trim (message (values (ui pg))))))]
  /\ ui (step email_ok pg Submit)
     = mkState (values (ui pg)) ∅ true None (console (ui pg))
  /\ length (pending (step email_ok pg Submit)) = S (length (pending pg)).
Proof.
  intros Hs H1 H2 H3 H4.
  pose proof (resolver_accepts email_ok (values (ui pg)) H1 H2 H3 H4) as Hr.
  destruct (submit_enabled email_ok pg Hs)
    as [(errs & _ & He & _) | (d & k & Hd & Hstep & _)].
  - rewrite Hr in He. discriminate He.
  - rewrite Hr in Hd. injection Hd as <-. rewrite Hstep.
    cbn [sent ui pending]. rewrite length_app. cbn [length].
    repeat split. lia.
Qed.

Lemma X8_witness :
  sent (step has_at_sign
          (mkPage (mkState (mkData (lit "  Buzz ") (lit " buzz@example.com")
                                   (lit "(11) 9876-5432") (lit "hello "))
                           ∅ false None []) [] [])
          Submit)
  = [submission (mkData (lit "Buzz") (lit "buzz@example.com")
                        (lit "(11) 9876-5432") (lit "hello"))].
Proof.
  apply (X8_submit_sends_parsed_values has_at_sign
           (mkPage (mkState (mkData (lit "  Buzz ") (lit " buzz@example.com")
                                    (lit "(11) 9876-5432") (lit "hello "))
                            ∅ false None []) [] []));
    [reflexivity | vm_compute; lia | reflexivity | reflexivity
    | vm_compute; lia].
Defined.

(** *** What the form keeps *)

Lemma sound_initial (email_ok : jsstring -> bool) : sound email_ok initialPage.
Proof.
  split; [apply exclusive_initial | split; [discriminate | constructor]].
Qed.

Lemma sound_step (email_ok : jsstring -> bool) (pg : Page) (ev : Event) :
  sound email_ok pg -> sound email_ok (step email_ok pg ev).
Proof.
  intros (Hex & Hst & Hsent).
  split; [apply exclusive_step, Hex|].
  destruct ev as [key v | | | | i o]; try (split; assumption).
  - (* a submit attempt *)
    destruct (isSubmitting (ui pg)) eqn:Hs.
    + unfold step. cbn [submitButton disabled]. rewrite Hs.
      split; [rewrite Hs | exact Hsent]. intros _. apply Hst. reflexivity.
    + destruct (submit_enabled email_ok pg Hs)
        as [(errs & _ & _ & ->) | (d & k & Hd & -> & _)];
        cbn [ui sent apply_effect isSubmitting status].
      * split; [congruence | exact Hsent].
      * split; [reflexivity|].
        apply Forall_app. split; [exact Hsent|].
        constructor; [| constructor].
        exists d. split; [| reflexivity].
        apply (resolver_values email_ok _ _ _ Hd).
  - (* a request settles *)
    unfold step.
    destruct Hex as [[Hp Hs] | (r & k & Hp & Hs & Hk)]; rewrite Hp.
    + destruct i; cbn; split; assumption.
    + destruct i as [|i]; cbn [lookup list_lookup];
        [| split; assumption].
      destruct (Hk o (ui pg)) as (st' & Hrun & Hs').
      unfold launch. cbn [ui pending sent]. rewrite Hrun. cbn [ui sent].
      split; [congruence | exact Hsent].
Qed.

Lemma sound_steps (email_ok : jsstring -> bool) (evs : list Event) (pg : Page) :
  sound email_ok pg -> sound email_ok (steps email_ok pg evs).
Proof.
  revert pg. induction evs as [|ev evs IH]; intros pg H; [exact H|].
  apply IH, sound_step, H.
Qed.

(** X9. Whatever the user does and whatever the network answers,
    every request the form has sent is a POST to the one endpoint
    whose body serializes data on which the four checks of the schema
    hold: data at fault never leaves the page. *)
Theorem X9_only_accepted_data_is_sent
  (email_ok : jsstring -> bool) (evs : list Event) :
  Forall
    (fun r =>
       exists d,
         r = mkRequest "/api/send-email" "POST"
               [("Content-Type", "application/json")] (Json.stringify d)
         /\ 2 <= length (name d) /\ email_ok (email d) = true
         /\ test phone_regex (number d) = true /\ 5 <= length (message d))
    (sent (steps email_ok initialPage evs)).
Proof.
  destruct (sound_steps email_ok evs initialPage (sound_initial email_ok))
    as (_ & _ & Hsent).
  rewrite List.Forall_forall in Hsent. apply List.Forall_forall.
  intros r Hr. destruct (Hsent r Hr) as (d & Hacc & ->).
  exists d. split; [reflexivity | exact Hacc].
Qed.

(** X10. In every state the form can reach, it is submitting exactly
    when a request is in flight, and while it is submitting no status
    is set, so that no status line is shown. *)
Theorem X10_no_status_while_submitting
  (email_ok : jsstring -> bool) (evs : list Event) :
  (isSubmitting (ui (steps email_ok initialPage evs)) = true
   <-> pending (steps email_ok initialPage evs) <> [])
  /\ (isSubmitting (ui (steps email_ok initialPage evs)) = true ->
      status (ui (steps email_ok initialPage evs)) = None
      /\ statusLine (ui (steps email_ok initialPage evs)) = None).
Proof.
  destruct (sound_steps email_ok evs initialPage (sound_initial email_ok))
    as (Hex & Hst & _).
  set (pg := steps email_ok initialPage evs) in *. clearbody pg.
  split.
  - destruct Hex as [[Hp Hs] | (r & k & Hp & Hs & _)]; rewrite Hp, Hs.
    + split; [discriminate | intros H; contradiction].
    + split; [discriminate | reflexivity].
  - intros Hs. specialize (Hst Hs).
    split; [exact Hst | unfold statusLine; rewrite Hst; reflexivity].
Qed.

Lemma X10_witness :
  pending (steps has_at_sign initialPage buzz_events) <> []
  /\ statusLine (ui (steps has_at_sign initialPage buzz_events)) = None.
Proof.
  destruct (X10_no_status_while_submitting has_at_sign buzz_events)
    as (Hiff & Hst).
  split.
  - apply (proj1 Hiff). reflexivity.
  - apply Hst. reflexivity.
Defined.

(** X11. After a submission that failed, by a response outside the
    2xx range or by a rejected request, the form holds the values it
    held, its control is enabled again, and a new submit attempt
    sends the same request once more. *)
Theorem X11_failed_submission_can_be_retried
  (email_ok : jsstring -> bool) (pg : Page) (o : FetchOutcome) :
  isSubmitting (ui pg) = false ->
  pending pg = [] ->
  2 <= length (trim (name (values (ui pg)))) ->
  email_ok (trim (email (values (ui pg)))) = true ->
  test phone_regex (number (values (ui pg))) = true ->
  5 <= length (trim (message (values (ui pg)))) ->
  match o with
  | Resolved resp => ok resp = false
  | Rejected _ => True
  end ->
  let failed := steps email_ok pg [Submit; Settle 0 o] in
  let request :=
    submission (mkData (trim (name (values (ui pg))))
                       (trim (email (values (ui pg))))
                       (number (values (ui pg)))
                       (trim (message (values (ui pg))))) in
  values (ui failed) = values (ui pg)
  /\ statusLine (ui failed) = Some "Erro ao enviar. Tente novamente."
  /\ disabled (submitButton (ui failed)) = false
  /\ pending failed = []
  /\ sent (step email_ok failed Submit) = sent pg ++ [request; request].
Proof.
  intros Hs Hp H1 H2 H3 H4 Ho. cbv zeta.
  pose proof (resolver_accepts email_ok (values (ui pg)) H1 H2 H3 H4) as Hr.
  unfold steps. cbn [fold_left].
  destruct (submit_enabled email_ok pg Hs)
    as [(errs & _ & He & _) | (d & k & Hd & Hstep & _ & Hk)].
  { rewrite Hr in He. discriminate He. }
  rewrite Hr in Hd. injection Hd as <-.
  rewrite Hstep, Hp. cbn [app].
  set (request := submission _) in *.
  assert (Hfailed : exists st,
             step email_ok
               (mkPage (mkState (values (ui pg)) ∅ true None (console (ui pg)))
                       [(request, k)] (sent pg ++ [request]))
               (Settle 0 o)
             = mkPage st [] (sent pg ++ [request])
             /\ values st = values (ui pg)
             /\ isSubmitting st = false
             /\ statusLine st = Some "Erro ao enviar. Tente novamente.").
  { unfold step. cbn [pending lookup list_lookup].
    unfold launch. cbn [ui pending sent delete list_delete]. rewrite Hk.
    eexists. split; [reflexivity|].
    destruct o as [resp | reason]; [rewrite Ho|]; repeat split. }
  destruct Hfailed as (st & -> & Hv & Hf & Hl).
  cbn [ui pending submitButton disabled].
  split; [exact Hv | split; [exact Hl | split; [exact Hf | split;
    [reflexivity|]]]].
  destruct (submit_enabled email_ok (mkPage st [] (sent pg ++ [request])) Hf)
    as [(errs & _ & He & _) | (d & k' & Hd & Hstep' & _)];
    cbn [ui] in *.
  { rewrite Hv, Hr in He. discriminate He. }
  rewrite Hv, Hr in Hd. injection Hd as <-.
  rewrite Hstep'. cbn [sent]. rewrite <- app_assoc. reflexivity.
Qed.

Lemma X11_witness :
  sent (steps has_at_sign initialPage
          (buzz_events ++ [Settle 0 (Resolved (mkResponse 503 [])); Submit]))
  = [submission buzz; submission buzz].
Proof.
  pose proof (X11_failed_submission_can_be_retried has_at_sign
                (steps has_at_sign initialPage
                   [Input "name" (name buzz); Input "email" (email buzz);
                    Input "number" (lit "11987654321"); BlurNumber;
                    Input "message" (message buzz); BlurMessage])
                (Resolved (mkResponse 503 []))) as H.
  cbv zeta in H.
  destruct H as (_ & _ & _ & _ & H);
    [reflexivity | reflexivity | vm_compute; lia | reflexivity | reflexivity
    | vm_compute; lia | reflexivity |].
  exact H.
Defined.

(** X12. After a submission that succeeded the form is empty, with no
    error, and shows the line of success.  A new submit attempt right
    away sends nothing: the empty fields are at fault, their messages
    are shown, and the line of success stays where it is. *)
Theorem X12_after_success_the_form_is_empty
  (email_ok : jsstring -> bool) (pg : Page) (resp : Response) :
  isSubmitting (ui pg) = false ->
  pending pg = [] ->
  2 <= length (trim (name (values (ui pg)))) ->
  email_ok (trim (email (values (ui pg)))) = true ->
  test phone_regex (number (values (ui pg))) = true ->
  5 <= length (trim (message (values (ui pg)))) ->
  ok resp = true ->
  let done := steps email_ok pg [Submit; Settle 0 (Resolved resp)] in
  let again := step email_ok done Submit in
  values (ui done) = mkData [] [] [] []
  /\ errors (ui done) = ∅
  /\ statusLine (ui done) = Some "Mensagem enviada com sucesso!"
  /\ disabled (submitButton (ui done)) = false
  /\ sent again = sent done
  /\ pending again = []
  /\ fieldError "name" (ui again) = Some "Digite seu nome completo."
  /\ fieldError "number" (ui again) = Some "Digite um número válido."
  /\ fieldError "message" (ui again)
     = Some "A mensagem deve ter pelo menos 5 caracteres."
  /\ statusLine (ui again) = Some "Mensagem enviada com sucesso!".
Proof.
  intros Hs Hp H1 H2 H3 H4 Hok. cbv zeta.
  pose proof (resolver_accepts email_ok (values (ui pg)) H1 H2 H3 H4) as Hr.
  unfold steps. cbn [fold_left].
  destruct (submit_enabled email_ok pg Hs)
    as [(errs & _ & He & _) | (d & k & Hd & Hstep & _ & Hk)].
  { rewrite Hr in He. discriminate He. }
  rewrite Hstep, Hp. cbn [app].
  assert (Hdone : step email_ok
                    (mkPage (mkState (values (ui pg)) ∅ true None
                                     (console (ui pg)))
                            [(submission d, k)] (sent pg ++ [submission d]))
                    (Settle 0 (Resolved resp))
                  = mkPage (mkState emptyData ∅ false (Some StatusSuccess)
                                    (console (ui pg)))
                           [] (sent pg ++ [submission d])).
  { unfold step. cbn [pending lookup list_lookup].
    unfold launch. cbn [ui pending sent delete list_delete].
    rewrite Hk, Hok. reflexivity. }
  rewrite Hdone. set (done := mkPage _ [] _).
  cbn [ui values errors statusLine status submitButton disabled isSubmitting
       done].
  repeat (split; [reflexivity|]).
  assert (Hf : isSubmitting (ui done) = false) by reflexivity.
  destruct (submit_enabled email_ok done Hf)
    as [(errs & _ & He & Hstep') | (d' & k' & Hd' & _)].
  - rewrite Hstep'. cbn [sent pending ui apply_effect done]. unfold fieldError.
    cbn [errors].
    assert (Herrs : errs = snd (zodResolver email_ok contactSchema emptyData))
      by (cbn [done ui values] in He; rewrite He; reflexivity).
    subst errs. rewrite !resolver_errors_lookup.
    repeat split.
  - apply resolver_values in Hd'. destruct Hd' as (-> & _ & Hn & _).
    cbn in Hn. lia.
Qed.

Lemma X12_witness :
  values (ui (steps has_at_sign initialPage
                (buzz_events ++ [Settle 0 (Resolved (mkResponse 200 []))])))
  = mkData [] [] [] []
  /\ sent (steps has_at_sign initialPage
             (buzz_events ++ [Settle 0 (Resolved (mkResponse 200 [])); Submit]))
     = [submission buzz].
Proof.
  pose proof (X12_after_success_the_form_is_empty has_at_sign
                (steps has_at_sign initialPage
                   [Input "name" (name buzz); Input "email" (email buzz);
                    Input "number" (lit "11987654321"); BlurNumber;
                    Input "message" (message buzz); BlurMessage])
                (mkResponse 200 [])) as H.
  cbv zeta in H.
  destruct H as (Hv & _ & _ & _ & Hsent & _);
    [reflexivity | reflexivity | vm_compute; lia | reflexivity | reflexivity
    | vm_compute; lia | reflexivity |].
  split; [exact Hv | exact Hsent].
Defined.

(** With fewer than ten digits the formatted value fails the
    pattern. *)
Lemma formatPhoneNumber_rejected (s : jsstring) :
  length (replace_non_digits s) < 10 ->
  test phone_regex (formatPhoneNumber s) = false.
Proof.
  intros Hlen. apply not_true_is_false. intros Hm.
  apply phone_regex_digits in Hm.
  rewrite digits_of_formatPhoneNumber, length_firstn in Hm. lia.
Qed.

(** X13. Leaving the number field writes the formatted number back
    and touches nothing else: the other fields, the errors, the
    status and the requests are as they were, and leaving the field
    a second time changes nothing. *)
Theorem X13_blur_formats_the_number_only
  (email_ok : jsstring -> bool) (pg : Page) :
  let left := step email_ok pg BlurNumber in
  values (ui left)
  = mkData (name (values (ui pg))) (email (values (ui pg)))
           (formatPhoneNumber (number (values (ui pg))))
           (message (values (ui pg)))
  /\ errors (ui left) = errors (ui pg)
  /\ isSubmitting (ui left) = isSubmitting (ui pg)
  /\ status (ui left) = status (ui pg)
  /\ pending left = pending pg
  /\ sent left = sent pg
  /\ step email_ok left BlurNumber = left.
Proof.
  cbv zeta. repeat (split; [reflexivity|]).
  unfold step, with_values, set_field.
  cbn [String.eqb Ascii.eqb Bool.eqb ui values errors isSubmitting status
       console pending sent name email number message].
  rewrite formatPhoneNumber_idempotent. reflexivity.
Qed.

(** X14. With the other fields in order, the number decides what a
    submit attempt does once the field was left: when at least ten
    digits were typed, in whatever layout, the request goes out with
    the number in the final format; with fewer digits nothing is
    sent and the number gets its message. *)
Theorem X14_blurred_number_decides_submission
  (email_ok : jsstring -> bool) (pg : Page) :
  isSubmitting (ui pg) = false ->
  2 <= length (trim (name (values (ui pg)))) ->
  email_ok (trim (email (values (ui pg)))) = true ->
  5 <= length (trim (message (values (ui pg)))) ->
  let attempt := steps email_ok pg [BlurNumber; Submit] in
  (10 <= length (replace_non_digits (number (values (ui pg)))) ->
   sent attempt
   = sent pg
     ++ [submission
           (mkData (trim (name (values (ui pg))))
                   (trim (email (values (ui pg))))
                   (formatPhoneNumber (number (values (ui pg))))
                   (trim (message (values (ui pg)))))]
   /\ isSubmitting (ui attempt) = true)
  /\ (length (replace_non_digits (number (values (ui pg)))) < 10 ->
      sent attempt = sent pg
      /\ isSubmitting (ui attempt) = false
      /\ fieldError "number" (ui attempt) = Some "Digite um número válido.").
Proof.
  intros Hs H1 H2 H4. cbv zeta. unfold steps. cbn [fold_left].
  set (left := step email_ok pg BlurNumber).
  assert (Hv : values (ui left)
               = mkData (name (values (ui pg))) (email (values (ui pg)))
                        (formatPhoneNumber (number (values (ui pg))))
                        (message (values (ui pg)))) by reflexivity.
  assert (Hs' : isSubmitting (ui left) = false) by exact Hs.
  assert (Hsent : sent left = sent pg) by reflexivity.
  clearbody left.
  set (v := mkData _ _ _ _) in Hv.
  split; intros Hlen.
  - pose proof (formatPhoneNumber_matches _ Hlen) as H3.
    destruct (submit_enabled email_ok left Hs')
      as [(errs & _ & He & _) | (d & k & Hd & Hstep & _)];
      rewrite Hv in *.
    + rewrite (resolver_accepts email_ok v H1 H2 H3 H4) in He.
      discriminate He.
    + rewrite (resolver_accepts email_ok v H1 H2 H3 H4) in Hd.
      injection Hd as <-. rewrite Hstep. cbn [sent ui isSubmitting].
      rewrite Hsent. split; reflexivity.
  - pose proof (formatPhoneNumber_rejected _ Hlen) as H3. subst v.
    destruct (submit_enabled email_ok left Hs')
      as [(errs & _ & He & Hstep) | (d & k & Hd & _)].
    + rewrite Hstep. cbn [sent ui apply_effect isSubmitting]. unfold fieldError.
      cbn [errors].
      assert (Herrs : errs = snd (zodResolver email_ok contactSchema
                                    (values (ui left))))
        by (rewrite He; reflexivity).
      subst errs. rewrite resolver_errors_lookup, Hv.
      cbn [String.eqb Ascii.eqb Bool.eqb number]. rewrite H3.
      repeat split; assumption.
    + apply resolver_values in Hd. destruct Hd as (-> & _ & _ & _ & Hn & _).
      rewrite Hv in Hn. cbn [number] in Hn. rewrite H3 in Hn. discriminate Hn.
Qed.

Lemma X14_witness :
  sent (steps has_at_sign
          (mkPage (mkState (mkData (lit "Buzz") (lit "buzz@example.com")
                                   (lit "11 9 8765 4321") (lit "hello"))
                           ∅ false None []) [] [])
          [BlurNumber; Submit])
  = [submission (mkData (lit "Buzz") (lit "buzz@example.com")
                        (lit "(11) 98765-4321") (lit "hello"))]
  /\ fieldError "number"
       (ui (steps has_at_sign
              (mkPage (mkState (mkData (lit "Buzz") (lit "buzz@example.com")
                                       (lit "11 9876") (lit "hello"))
                               ∅ false None []) [] [])
              [BlurNumber; Submit]))
     = Some "Digite um número válido.".
Proof.
  split.
  - apply (X14_blurred_number_decides_submission has_at_sign
             (mkPage (mkState (mkData (lit "Buzz") (lit "buzz@example.com")
                                      (lit "11 9 8765 4321") (lit "hello"))
                              ∅ false None []) [] []));
      [reflexivity | vm_compute; lia | reflexivity | vm_compute; lia
      | vm_compute; lia].
  - apply (X14_blurred_number_decides_submission has_at_sign
             (mkPage (mkState (mkData (lit "Buzz") (lit "buzz@example.com")
                                      (lit "11 9876") (lit "hello"))
                              ∅ false None []) [] []));
      [reflexivity | vm_compute; lia | reflexivity | vm_compute; lia
      | vm_compute; lia].
Defined.



(** ** The clean-up beyond the claim *)

Lemma cleanup_finds_nothing (d : Dom.Document) :
  Dom.querySelectorAll "script" (lit "particles.min.js") (Dom.cleanup d) = [].
Proof.
  unfold Dom.querySelectorAll.
  destruct (List.filter _ _) as [|x l] eqn:Hf; [reflexivity | exfalso].
  assert (Hin : In x (x :: l)) by (left; reflexivity).
  rewrite <- Hf in Hin. apply List.filter_In in Hin.
  destruct Hin as [Hx Hsel].
  rewrite (cleanup_selects_nothing d x Hx) in Hsel. discriminate Hsel.
Qed.

(** X16. The clean-up is idempotent, and it leaves alone a document
    in which its selector finds nothing. *)
Theorem X16_cleanup_idempotent (d : Dom.Document) :
  Dom.cleanup (Dom.cleanup d) = Dom.cleanup d
  /\ (existsb (Dom.selects "script" (lit "particles.min.js"))
              (Dom.elements (Dom.document d)) = false ->
      Dom.cleanup d = d).
Proof.
  split.
  - unfold Dom.cleanup at 1. rewrite cleanup_finds_nothing. reflexivity.
  - intros H. unfold Dom.cleanup, Dom.querySelectorAll.
    assert (Hf : List.filter (Dom.selects "script" (lit "particles.min.js"))
                             (Dom.elements (Dom.document d)) = []).
    { destruct (List.filter _ _) as [|x l] eqn:Hf; [reflexivity | exfalso].
      assert (Hin : In x (x :: l)) by (left; reflexivity).
      rewrite <- Hf in Hin. apply List.filter_In in Hin.
      destruct Hin as [Hx Hsel].
      assert (Hex : existsb (Dom.selects "script" (lit "particles.min.js"))
                            (Dom.elements (Dom.document d)) = true)
        by (apply existsb_exists; exists x; auto).
      congruence. }
    rewrite Hf. reflexivity.
Qed.

Lemma X16_witness : Dom.cleanup Dom.page = Dom.page.
Proof.
  apply (proj2 (X16_cleanup_idempotent Dom.page)). reflexivity.
Defined.

(** *** Elements that stay *)

Lemma lineage_ancestors (e : Dom.element) :
  forall (anc p : list nat) (x : Dom.element),
    In (p, x) (lineage anc e) -> forall i, In i anc -> In i p.
Proof.
  induction e as [j t s cs IH] using element_children_ind.
  intros anc p x Hin i Hi. cbn [lineage] in Hin.
  destruct Hin as [Heq | Hin].
  - injection Heq as <- _. right. exact Hi.
  - apply in_flat_map in Hin. destruct Hin as (c & Hc & Hin).
    rewrite List.Forall_forall in IH.
    apply (IH c Hc _ _ _ Hin). right. exact Hi.
Qed.

Lemma lineage_root (anc : list nat) (e : Dom.element)
  (p : list nat) (x : Dom.element) :
  In (p, x) (lineage anc e) -> In (Dom.elt_id e) p.
Proof.
  destruct e as [j t s cs]. cbn [lineage Dom.elt_id].
  intros [Heq | Hin].
  - injection Heq as <- _. left. reflexivity.
  - apply in_flat_map in Hin. destruct Hin as (c & _ & Hin).
    apply (lineage_ancestors c _ _ _ Hin). left. reflexivity.
Qed.

(** Pruning keeps the elements whose line of ancestors avoids the
    identity that is pruned. *)
Lemma prune_forest_lineage (i : nat) (anc : list nat) (l : list Dom.element)
  (p : list nat) (x : Dom.element) :
  Forall (fun c => forall anc' p' x',
              In (p', x') (lineage anc' c) -> ~ In i p' ->
              exists y, In (p', y) (lineage anc' (Dom.prune i c))
                        /\ Dom.same_node y x') l ->
  In (p, x) (flat_map (lineage anc) l) ->
  ~ In i p ->
  exists y,
    In (p, y)
       (flat_map (lineage anc)
          (List.filter (fun c => negb (Dom.elt_id c =? i))
                       (List.map (Dom.prune i) l)))
    /\ Dom.same_node y x.
Proof.
  intros Hall Hin Hi. apply in_flat_map in Hin.
  destruct Hin as (c & Hc & Hin).
  rewrite List.Forall_forall in Hall.
  destruct (Hall c Hc _ _ _ Hin Hi) as (y & Hy & Hxy).
  exists y. split; [| exact Hxy].
  apply in_flat_map. exists (Dom.prune i c). split; [| exact Hy].
  apply List.filter_In. split; [apply in_map, Hc|].
  apply negb_true_iff, Nat.eqb_neq. intros Heq. apply Hi.
  rewrite <- Heq. destruct (prune_same_node i c) as (-> & _).
  apply (lineage_root _ _ _ _ Hin).
Qed.

Lemma prune_lineage (i : nat) (e : Dom.element) :
  forall (anc p : list nat) (x : Dom.element),
    In (p, x) (lineage anc e) -> ~ In i p ->
    exists y, In (p, y) (lineage anc (Dom.prune i e)) /\ Dom.same_node y x.
Proof.
  induction e as [j t s cs IH] using element_children_ind.
  intros anc p x Hin Hi. cbn [lineage] in Hin.
  destruct Hin as [Heq | Hin].
  - injection Heq as <- <-. exists (Dom.prune i (Dom.Element j t s cs)).
    split; [left; reflexivity | apply prune_same_node].
  - destruct (prune_forest_lineage i (j :: anc) cs p x IH Hin Hi)
      as (y & Hy & Hxy).
    exists y. split; [right; exact Hy | exact Hxy].
Qed.

Lemma remove_script_lineage (i : nat) (d : Dom.Document)
  (p : list nat) (x : Dom.element) :
  In (p, x) (flat_map (lineage []) (Dom.document d)) ->
  ~ In i p ->
  exists y,
    In (p, y) (flat_map (lineage []) (Dom.document (Dom.remove_script d i)))
    /\ Dom.same_node y x.
Proof.
  intros Hin Hi. unfold Dom.remove_script.
  destruct (Dom.has_parent i d).
  - apply prune_forest_lineage; [| exact Hin | exact Hi].
    apply List.Forall_forall. intros c _. apply prune_lineage.
  - exists x. split; [exact Hin | repeat split].
Qed.

Lemma remove_scripts_lineage (ids : list nat) (d : Dom.Document)
  (p : list nat) (x : Dom.element) :
  In (p, x) (flat_map (lineage []) (Dom.document d)) ->
  (forall i, In i ids -> ~ In i p) ->
  exists y,
    In (p, y)
       (flat_map (lineage [])
          (Dom.document (fold_left Dom.remove_script ids d)))
    /\ Dom.same_node y x.
Proof.
  revert d x. induction ids as [|i ids IH]; intros d x Hin Hp.
  - exists x. split; [exact Hin | repeat split].
  - cbn [fold_left].
    destruct (remove_script_lineage i d p x Hin (Hp i (or_introl eq_refl)))
      as (y & Hy & Hyx).
    destruct (IH _ y Hy (fun j Hj => Hp j (or_intror Hj))) as (z & Hz & Hzy).
    exists z. split; [exact Hz | exact (same_node_trans z y x Hzy Hyx)].
Qed.

(** X17. The clean-up takes out the scripts its selector finds and
    what is below them, and nothing else: an element of the document
    that is none of these scripts, and below none of them, is still
    in the document afterwards, at the same place under the same
    ancestors, with its tag and its source. *)
Theorem X17_cleanup_keeps_the_rest
  (d : Dom.Document) (p : list nat) (x : Dom.element) :
  In (p, x) (flat_map (lineage []) (Dom.document d)) ->
  (forall i,
      In i (Dom.querySelectorAll "script" (lit "particles.min.js") d) ->
      ~ In i p) ->
  exists y,
    In (p, y) (flat_map (lineage []) (Dom.document (Dom.cleanup d)))
    /\ Dom.elt_id y = Dom.elt_id x
    /\ Dom.tag y = Dom.tag x
    /\ Dom.src y = Dom.src x.
Proof.
  intros Hin Hp. unfold Dom.cleanup.
  destruct (remove_scripts_lineage _ d p x Hin Hp) as (y & Hy & Hyx).
  exists y. split; [exact Hy | exact Hyx].
Qed.

Lemma X17_witness :
  exists y,
    In ([4; 3; 1], y)
       (flat_map (lineage [])
          (Dom.document (Dom.cleanup (Dom.loadParticlesScript 7 3 Dom.page))))
    /\ Dom.elt_id y = 4 /\ Dom.tag y = "div" /\ Dom.src y = None.
Proof.
  apply (X17_cleanup_keeps_the_rest
           (Dom.loadParticlesScript 7 3 Dom.page) [4; 3; 1]
           (Dom.Element 4 "div" None [])).
  - vm_compute. tauto.
  - intros i Hi. vm_compute in Hi. destruct Hi as [<- | []].
    cbn. intros [H | [H | [H | []]]]; discriminate H.
Defined.

(** *** Mounting, then unmounting *)

Lemma elements_cons (c : Dom.element) (l : list Dom.element) :
  Dom.elements (c :: l) = c :: Dom.elements (Dom.children c) ++ Dom.elements l.
Proof.
  unfold Dom.elements at 1. cbn [flat_map]. rewrite subtree_unfold.
  reflexivity.
Qed.

Lemma elements_app (l l' : list Dom.element) :
  Dom.elements (l ++ l') = Dom.elements l ++ Dom.elements l'.
Proof. apply flat_map_app. Qed.

(** Pruning an identity that is not there changes nothing. *)
Lemma without_absent_forest (i : nat) (l : list Dom.element) :
  Forall (fun c => ~ In i (identities [c]) -> Dom.prune i c = c) l ->
  ~ In i (identities l) -> without i l = l.
Proof.
  unfold without, identities.
  induction 1 as [|c l Hc _ IH]; intros Hi; [reflexivity|].
  rewrite elements_cons in Hi. cbn [List.map] in Hi.
  rewrite map_app in Hi.
  cbn [List.map List.filter].
  assert (Hid : Dom.elt_id c <> i) by (intros Heq; apply Hi; left; exact Heq).
  assert (Hc' : Dom.prune i c = c).
  { apply Hc. rewrite elements_cons, app_nil_r. cbn [List.map].
    intros [Heq | Hin]; apply Hi; [left; exact Heq | right].
    apply in_or_app. left. exact Hin. }
  rewrite Hc'. apply Nat.eqb_neq in Hid. rewrite Hid. cbn [negb].
  f_equal. apply IH. intros Hin. apply Hi. right. apply in_or_app.
  right. exact Hin.
Qed.

Lemma prune_absent (i : nat) (e : Dom.element) :
  ~ In i (identities [e]) -> Dom.prune i e = e.
Proof.
  induction e as [j t s cs IH] using element_children_ind.
  intros Hi. unfold identities in Hi.
  rewrite elements_cons, app_nil_r in Hi. cbn [List.map Dom.children] in Hi.
  cbn [Dom.prune]. f_equal.
  apply (without_absent_forest i cs IH).
  intros Hin. apply Hi. right. exact Hin.
Qed.

Lemma without_absent (i : nat) (l : list Dom.element) :
  ~ In i (identities l) -> without i l = l.
Proof.
  apply without_absent_forest, List.Forall_forall.
  intros c _. apply prune_absent.
Qed.

Lemma without_identities (i : nat) (l : list Dom.element) :
  ~ In i (identities (without i l)).
Proof.
  unfold identities. intros Hin. apply in_map_iff in Hin.
  destruct Hin as (x & Hid & Hx).
  assert (Hwell : Forall (Dom.pruned_well i) l)
    by (apply List.Forall_forall; intros c _; apply prune_well).
  destruct (elements_pruned i l Hwell x Hx) as (Hne & _).
  exact (Hne Hid).
Qed.

Lemma without_idem (i : nat) (l : list Dom.element) :
  without i (without i l) = without i l.
Proof. apply without_absent, without_identities. Qed.

(** One turn of the loop of the clean-up leaves the document without
    the script. *)
Lemma remove_script_without (i : nat) (d : Dom.Document) :
  Dom.document (Dom.remove_script d i) = without i (Dom.document d).
Proof.
  unfold Dom.remove_script. destruct (Dom.has_parent i d) eqn:Hp;
    [reflexivity|].
  symmetry. apply without_absent. unfold identities. intros Hin.
  apply in_map_iff in Hin. destruct Hin as (x & Hid & Hx).
  rewrite (has_parent_in_document i d x Hx Hid) in Hp. discriminate Hp.
Qed.

Lemma remove_scripts_same (i : nat) (ids : list nat) (d : Dom.Document) :
  Forall (eq i) ids -> ids <> [] ->
  Dom.document (fold_left Dom.remove_script ids d) = without i (Dom.document d).
Proof.
  intros Hall. revert d. induction Hall as [|j ids <- Hall IH]; intros d Hne;
    [contradiction|].
  cbn [fold_left]. destruct ids as [|j ids].
  - apply remove_script_without.
  - rewrite IH by discriminate.
    rewrite remove_script_without. apply without_idem.
Qed.

(** Appending a childless element of a new identity, then pruning
    that identity, gives the forest back. *)
Lemma append_without_forest (fresh b : nat) (n : Dom.element)
  (l : list Dom.element) :
  Dom.elt_id n = fresh ->
  Forall (fun c => ~ In fresh (identities [c]) ->
                   Dom.prune fresh (Dom.append_to b n c) = c) l ->
  ~ In fresh (identities l) ->
  without fresh (List.map (Dom.append_to b n) l) = l.
Proof.
  intros Hn. unfold without, identities.
  induction 1 as [|c l Hc _ IH]; intros Hi; [reflexivity|].
  rewrite elements_cons in Hi. cbn [List.map] in Hi. rewrite map_app in Hi.
  cbn [List.map List.filter].
  assert (Hid : Dom.elt_id c <> fresh)
    by (intros Heq; apply Hi; left; exact Heq).
  assert (Hc' : Dom.prune fresh (Dom.append_to b n c) = c).
  { apply Hc. unfold identities. rewrite elements_cons, app_nil_r.
    cbn [List.map].
    intros [Heq | Hin]; apply Hi; [left; exact Heq | right].
    apply in_or_app. left. exact Hin. }
  rewrite Hc'. apply Nat.eqb_neq in Hid. rewrite Hid. cbn [negb].
  f_equal. apply IH. intros Hin. apply Hi. right. apply in_or_app.
  right. exact Hin.
Qed.

Lemma append_prune (fresh b : nat) (t : string) (s : option jsstring)
  (e : Dom.element) :
  ~ In fresh (identities [e]) ->
  Dom.prune fresh (Dom.append_to b (Dom.Element fresh t s []) e) = e.
Proof.
  induction e as [j t' s' cs IH] using element_children_ind.
  intros Hi. unfold identities in Hi.
  rewrite elements_cons, app_nil_r in Hi. cbn [List.map Dom.children] in Hi.
  assert (Hcs : without fresh
                  (List.map (Dom.append_to b (Dom.Element fresh t s [])) cs)
                = cs).
  { apply append_without_forest; [reflexivity | exact IH |].
    intros Hin. apply Hi. right. exact Hin. }
  cbn [Dom.append_to Dom.prune]. f_equal.
  destruct (j =? b); [| exact Hcs].
  rewrite map_app, List.filter_app. cbn [List.map List.filter Dom.prune].
  cbn [Dom.elt_id]. rewrite Nat.eqb_refl. cbn [negb].
  rewrite app_nil_r. exact Hcs.
Qed.

Lemma load_without (fresh b : nat) (d : Dom.Document) :
  ~ In fresh (identities (Dom.document d)) ->
  without fresh (Dom.document (Dom.loadParticlesScript fresh b d))
  = Dom.document d.
Proof.
  intros Hi. unfold Dom.loadParticlesScript. cbn [Dom.document].
  apply append_without_forest; [reflexivity | | exact Hi].
  apply List.Forall_forall. intros c _. apply append_prune.
Qed.

(** The elements of a forest after an element was appended: the new
    element, or one that was there. *)
Lemma append_elements_forest (b : nat) (n : Dom.element)
  (l : list Dom.element) (x : Dom.element) :
  Forall (fun c => forall x',
              In x' (Dom.subtree (Dom.append_to b n c)) ->
              In x' (Dom.subtree n)
              \/ exists y, In y (Dom.subtree c) /\ Dom.same_node x' y) l ->
  In x (Dom.elements (List.map (Dom.append_to b n) l)) ->
  In x (Dom.subtree n)
  \/ exists y, In y (Dom.elements l) /\ Dom.same_node x y.
Proof.
  intros Hall Hx. unfold Dom.elements in Hx. apply in_flat_map in Hx.
  destruct Hx as (c' & Hc' & Hx). apply in_map_iff in Hc'.
  destruct Hc' as (c & <- & Hc).
  rewrite List.Forall_forall in Hall.
  destruct (Hall c Hc x Hx) as [Hn | (y & Hy & Hxy)]; [left; exact Hn|].
  right. exists y. split; [| exact Hxy].
  apply in_flat_map. exists c. split; assumption.
Qed.

Lemma append_elements (b : nat) (n e : Dom.element) :
  forall x,
    In x (Dom.subtree (Dom.append_to b n e)) ->
    In x (Dom.subtree n)
    \/ exists y, In y (Dom.subtree e) /\ Dom.same_node x y.
Proof.
  induction e as [j t s cs IH] using element_children_ind.
  intros x Hx. cbn [Dom.append_to] in Hx. rewrite subtree_unfold in Hx.
  cbn [Dom.children] in Hx. destruct Hx as [<- | Hx].
  - right. exists (Dom.Element j t s cs).
    split; [left; reflexivity | repeat split].
  - assert (Hkids : In x (Dom.elements (List.map (Dom.append_to b n) cs))
                    \/ In x (Dom.subtree n)).
    { destruct (j =? b); [| left; exact Hx].
      rewrite elements_app in Hx. apply in_app_or in Hx.
      destruct Hx as [Hx | Hx]; [left; exact Hx | right].
      unfold Dom.elements in Hx. cbn [flat_map] in Hx.
      rewrite app_nil_r in Hx. exact Hx. }
    destruct Hkids as [Hx' | Hx']; [| left; exact Hx'].
    destruct (append_elements_forest b n cs x IH Hx')
      as [Hn | (y & Hy & Hxy)]; [left; exact Hn|].
    right. exists y. split; [right; exact Hy | exact Hxy].
Qed.

(** The element appended is in the forest when the parent it is
    appended to is. *)
Lemma append_found_forest (b : nat) (n : Dom.element) (l : list Dom.element) :
  Forall (fun c => In b (identities [c]) ->
                   In n (Dom.subtree (Dom.append_to b n c))) l ->
  In b (identities l) ->
  In n (Dom.elements (List.map (Dom.append_to b n) l)).
Proof.
  intros Hall Hb. unfold identities in Hb. apply in_map_iff in Hb.
  destruct Hb as (x & Hid & Hx). unfold Dom.elements in Hx.
  apply in_flat_map in Hx. destruct Hx as (c & Hc & Hx).
  rewrite List.Forall_forall in Hall.
  apply in_flat_map. exists (Dom.append_to b n c).
  split; [apply in_map, Hc|].
  apply (Hall c Hc). unfold identities, Dom.elements. cbn [flat_map].
  rewrite app_nil_r. apply in_map_iff. exists x. split; assumption.
Qed.

Lemma append_found (b : nat) (n e : Dom.element) :
  In b (identities [e]) -> In n (Dom.subtree (Dom.append_to b n e)).
Proof.
  induction e as [j t s cs IH] using element_children_ind.
  intros Hb. unfold identities in Hb.
  rewrite elements_cons, app_nil_r in Hb. cbn [List.map Dom.children] in Hb.
  cbn [Dom.append_to]. rewrite subtree_unfold. cbn [Dom.children]. right.
  destruct (Nat.eqb_spec j b) as [Hjb | Hjb].
  - rewrite elements_app. apply in_or_app. right.
    unfold Dom.elements. cbn [flat_map]. rewrite subtree_unfold. left.
    reflexivity.
  - destruct Hb as [Hb | Hb]; [cbn in Hb; contradiction|].
    apply (append_found_forest b n cs IH Hb).
Qed.

(** X18. Mounting the background and unmounting it gives the
    document back: on a page where the selector of the clean-up finds
    nothing and the identity of the new script is not in use, the
    document after the clean-up is the document before the mount, so
    that a later mount starts from the same page.  When the body is
    in the document, the script that the mount appends is one the
    selector of the clean-up finds. *)
Theorem X18_mount_then_unmount (fresh body_id : nat) (d : Dom.Document) :
  ~ In fresh (List.map Dom.elt_id (Dom.elements (Dom.document d))) ->
  existsb (Dom.selects "script" (lit "particles.min.js"))
          (Dom.elements (Dom.document d)) = false ->
  Dom.document (Dom.cleanup (Dom.loadParticlesScript fresh body_id d))
  = Dom.document d
  /\ (forall fresh',
        Dom.document
          (Dom.loadParticlesScript fresh' body_id
             (Dom.cleanup (Dom.loadParticlesScript fresh body_id d)))
        = Dom.document (Dom.loadParticlesScript fresh' body_id d))
  /\ (In body_id (List.map Dom.elt_id (Dom.elements (Dom.document d))) ->
      In fresh
         (Dom.querySelectorAll "script" (lit "particles.min.js")
            (Dom.loadParticlesScript fresh body_id d))).
Proof.
  intros Hfresh Hnone.
  set (n := Dom.Element fresh "script" (Some Dom.cdn_url) []).
  set (L := Dom.loadParticlesScript fresh body_id d).
  assert (Hsel : Dom.selects "script" (lit "particles.min.js") n = true)
    by reflexivity.
  assert (Hlook : forall x,
             In x (Dom.elements (Dom.document L)) ->
             x = n
             \/ exists y, In y (Dom.elements (Dom.document d))
                          /\ Dom.same_node x y).
  { intros x Hx.
    destruct (append_elements_forest body_id n (Dom.document d) x) as [H | H].
    - apply List.Forall_forall. intros c _. apply append_elements.
    - exact Hx.
    - left. destruct H as [H | []]. symmetry. exact H.
    - right. exact H. }
  assert (Hold : forall y, In y (Dom.elements (Dom.document d)) ->
                           Dom.selects "script" (lit "particles.min.js") y
                           = false).
  { intros y Hy. apply not_true_is_false. intros Hs.
    assert (Hex : existsb (Dom.selects "script" (lit "particles.min.js"))
                          (Dom.elements (Dom.document d)) = true)
      by (apply existsb_exists; exists y; auto).
    congruence. }
  assert (Hids : Forall (eq fresh)
                   (Dom.querySelectorAll "script" (lit "particles.min.js") L)).
  { apply List.Forall_forall. intros i Hi. unfold Dom.querySelectorAll in Hi.
    apply in_map_iff in Hi. destruct Hi as (x & <- & Hx).
    apply List.filter_In in Hx. destruct Hx as [Hx Hs].
    destruct (Hlook x Hx) as [-> | (y & Hy & Hxy)]; [reflexivity|].
    rewrite (selects_same_node _ _ x y Hxy), (Hold y Hy) in Hs.
    discriminate Hs. }
  assert (Hback : Dom.document (Dom.cleanup L) = Dom.document d).
  { unfold Dom.cleanup.
    destruct (Dom.querySelectorAll "script" (lit "particles.min.js") L)
      as [|i ids] eqn:Hq.
    - cbn [fold_left]. rewrite <- (load_without fresh body_id d Hfresh).
      fold L. symmetry. apply without_absent. unfold identities.
      intros Hin. apply in_map_iff in Hin. destruct Hin as (x & Hid & Hx).
      destruct (Hlook x Hx) as [-> | (y & Hy & (Hxy & _))].
      + assert (Hn : In (Dom.elt_id n)
                        (Dom.querySelectorAll "script"
                           (lit "particles.min.js") L)).
        { unfold Dom.querySelectorAll. apply in_map, List.filter_In.
          split; [exact Hx | exact Hsel]. }
        rewrite Hq in Hn. destruct Hn.
      + apply Hfresh. apply in_map_iff. exists y.
        split; [congruence | exact Hy].
    - rewrite (remove_scripts_same fresh (i :: ids) L Hids) by discriminate.
      apply load_without, Hfresh. }
  split; [exact Hback | split].
  - intros fresh'. unfold Dom.loadParticlesScript at 1 2.
    cbn [Dom.document]. rewrite Hback. reflexivity.
  - intros Hbody. unfold Dom.querySelectorAll.
    change fresh with (Dom.elt_id n). apply in_map, List.filter_In.
    split; [| exact Hsel].
    apply append_found_forest; [| exact Hbody].
    apply List.Forall_forall. intros c _. apply append_found.
Qed.

Lemma X18_witness :
  Dom.document (Dom.cleanup (Dom.loadParticlesScript 7 3 Dom.page))
  = Dom.document Dom.page
  /\ In 7 (Dom.querySelectorAll "script" (lit "particles.min.js")
             (Dom.loadParticlesScript 7 3 Dom.page)).
Proof.
  destruct (X18_mount_then_unmount 7 3 Dom.page) as (Hback & _ & Hfound).
  - vm_compute. intuition discriminate.
  - reflexivity.
  - split; [exact Hback | apply Hfound; vm_compute; tauto].
Defined.

(** ** The reveal of the content *)

(** X19. Through any sequence of mounts, unmounts and elapsed timers,
    a mounted form is structurally visible, it is opaque only when it
    is visible, and it is either opaque or still waiting for its
    timer, never neither; the timer acts once, and a timer that was
    cleared by the unmount does nothing. *)
Theorem X19_reveal_lifecycle (evs : list Reveal.Event) :
  match Reveal.steps Reveal.Unmounted evs with
  | Reveal.Unmounted => True
  | Reveal.Mounted f =>
      Reveal.visibility f = "visible"
      /\ Reveal.timer f = negb (Reveal.isContentVisible f)
      /\ (Reveal.opacity f = 1 <-> Reveal.timer f = false)
  end
  /\ Reveal.step (Reveal.steps Reveal.Unmounted (evs ++ [Reveal.Elapse]))
                 Reveal.Elapse
     = Reveal.steps Reveal.Unmounted (evs ++ [Reveal.Elapse])
  /\ Reveal.steps Reveal.Unmounted
       (evs ++ [Reveal.Unmount; Reveal.Elapse])
     = Reveal.Unmounted.
Proof.
  assert (Hinv : forall ph,
             match ph with
             | Reveal.Unmounted => True
             | Reveal.Mounted f =>
                 Reveal.isLoaded f = true
                 /\ Reveal.timer f = negb (Reveal.isContentVisible f)
             end ->
             match Reveal.steps ph evs with
             | Reveal.Unmounted => True
             | Reveal.Mounted f =>
                 Reveal.isLoaded f = true
                 /\ Reveal.timer f = negb (Reveal.isContentVisible f)
             end).
  { induction evs as [|ev evs IH]; intros ph Hph; [exact Hph|].
    apply IH. destruct ev, ph as [|[l v t]]; cbn in *; auto.
    destruct Hph as [-> ->]. destruct v; cbn; auto. }
  specialize (Hinv Reveal.Unmounted I).
  split; [| split].
  - destruct (Reveal.steps Reveal.Unmounted evs) as [|[l v t]]; [exact I|].
    cbn in Hinv |- *. destruct Hinv as [-> ->].
    split; [reflexivity | split; [reflexivity|]].
    destruct v; cbn; split; intros H; congruence.
  - unfold Reveal.steps. rewrite fold_left_app. cbn [fold_left].
    destruct (fold_left Reveal.step evs Reveal.Unmounted) as [|[l v []]];
      reflexivity.
  - unfold Reveal.steps. rewrite fold_left_app. cbn [fold_left].
    destruct (fold_left Reveal.step evs Reveal.Unmounted); reflexivity.
Qed.

Lemma X19_witness :
  Reveal.opacity (Reveal.timer_callback Reveal.mount_effect) = 1.
Proof.
  pose proof (X19_reveal_lifecycle [Reveal.Mount; Reveal.Elapse]) as (H & _).
  cbn in H. apply H. reflexivity.
Defined.
